(** * The storage utilities of the semester task manager

    A shallow embedding of [src/utils/storage.js] (the revision that keeps
    the semester index under ["@semesters_list"]), and the properties of its
    CRUD helpers for semesters, subjects and tasks.

    Modelling conventions.
    - [AsyncStorage] holds two keys.  Each is represented by the value its
      JSON text parses to, [None] standing for a key that was never written;
      [JSON.parse (JSON.stringify v)] is the identity on the values below.
    - A JS object used as a dictionary (the root document, a semester
      record) is a [gmap] of its own properties.  A property read [obj[k]]
      finds an own property first and otherwise, for the names every
      object inherits from [Object.prototype], a built-in member, which is
      truthy; see [JSObject.get].  [JSON.stringify] writes own properties
      only and leaves function values out.
    - The built-in objects are taken as the runtime provides them at the
      start of a call.  A call that goes on to read or write the properties
      of a built-in it got from such a read [Escapes]: what it does from
      there depends on the engine and is outside the model.
    - A subject record is an object whose two fields may each be missing.
    - Every exported function is [async]; awaiting it either returns or
      throws.  [Async A] threads the storage through a call and carries the
      outcome.  [AsyncStorage.setItem] is taken to succeed.
    - Task indices are integers ([Z]); array reads outside the array give
      [undefined]. *)

From stdpp Require Import gmap strings list fin_maps.
From Stdlib Require Import ZArith Lia.

Open Scope string_scope.
Open Scope Z_scope.

(** ** Data model *)

(** [{ title, dueDate, completed }] *)
Record Task := mkTask {
  title : string;
  dueDate : string;
  completed : bool
}.

(** [{ tasks, colorTag }], either field possibly absent in the stored JSON. *)
Record SubjectRecord := mkSubject {
  tasks : option (list Task);
  colorTag : option string
}.

Abbreviation SemesterRecord := (gmap string SubjectRecord).
Abbreviation Document := (gmap string (gmap string SubjectRecord)).

(** The two persisted values, named after their keys
    ["@semester_task_manager"] and ["@semesters_list"]. *)
Record AsyncStorage := mkStorage {
  semester_task_manager : option Document;
  semesters_list : option (list string)
}.

(** ** Outcomes of an awaited call *)

Inductive exn :=
  | Error (message : string)
  | TypeError.

(** [Escapes]: the call has a built-in object of the runtime in hand and
    goes on to read or write its properties; the storage that comes with
    it is the one at that point. *)
Inductive outcome (A : Type) :=
  | Returned (a : A)
  | Threw (e : exn)
  | Escapes.
Arguments Returned {A} a.
Arguments Threw {A} e.
Arguments Escapes {A}.

Definition Async (A : Type) : Type := AsyncStorage → outcome A * AsyncStorage.

#[global] Instance Async_ret : MRet Async :=
  λ A a st, (Returned a, st).

#[global] Instance Async_bind : MBind Async :=
  λ A B k m st,
    match m st with
    | (Returned a, st') => k a st'
    | (Threw e, st') => (Threw e, st')
    | (Escapes, st') => (Escapes, st')
    end.

Definition throw {A} (e : exn) : Async A := λ st, (Threw e, st).

Definition escape {A} : Async A := λ st, (Escapes, st).

(** ** JS array primitives on integer indices *)

Module Array.

(** [arr[i]]: [undefined] ([None]) unless [0 <= i < arr.length]. *)
Definition get {A} (arr : list A) (i : Z) : option A :=
  if bool_decide (0 ≤ i) then arr !! Z.to_nat i else None.

(** [arr.includes(x)] on strings. *)
Definition includes (arr : list string) (x : string) : bool :=
  bool_decide (x ∈ arr).

(** [arr.splice(start, deleteCount)], following ECMA-262: a negative
    [start] counts from the end and is clamped at [0], a [start] beyond
    the end is clamped at the length, and the number of removed elements
    is clamped to what is left. The result is the array after the call. *)
Definition splice {A} (arr : list A) (start deleteCount : Z) : list A :=
  let len := Z.of_nat (length arr) in
  let actualStart :=
    if bool_decide (start < 0) then Z.max (len + start) 0
    else Z.min start len in
  let actualDeleteCount := Z.min (Z.max deleteCount 0) (len - actualStart) in
  take (Z.to_nat actualStart) arr
    ++ drop (Z.to_nat (actualStart + actualDeleteCount)) arr.

End Array.

(** ** JS objects used as dictionaries *)

Module JSObject.

(** The property names of [Object.prototype] (ECMA-262, with Annex B):
    every object parsed from JSON or written as a literal inherits them. *)
Definition prototype_names : list string :=
  [ "constructor"; "hasOwnProperty"; "isPrototypeOf"; "propertyIsEnumerable";
    "toLocaleString"; "toString"; "valueOf"; "__proto__";
    "__defineGetter__"; "__defineSetter__"; "__lookupGetter__";
    "__lookupSetter__" ].

Definition inherited (k : string) : bool :=
  bool_decide (k ∈ prototype_names).

(** What [obj[k]] evaluates to: the value of an own property, the built-in
    the name is inherited as (a function, or [Object.prototype] itself for
    ["__proto__"]), or [undefined]. *)
Inductive member (A : Type) :=
  | Own (a : A)
  | Builtin (k : string)
  | Undefined.
Arguments Own {A} a.
Arguments Builtin {A} k.
Arguments Undefined {A}.

Definition get {A} (obj : gmap string A) (k : string) : member A :=
  match obj !! k with
  | Some a => Own a
  | None => if inherited k then Builtin k else Undefined
  end.

(** The own properties after [obj[k] = v], for an object [v].  On an
    object without an own property ["__proto__"] that name is the
    inherited accessor: the assignment sets the prototype of [obj] and
    adds no property. *)
Definition assign {A} (obj : gmap string A) (k : string) (v : A) : gmap string A :=
  match obj !! k with
  | Some _ => <[k := v]> obj
  | None => if bool_decide (k = "__proto__") then obj else <[k := v]> obj
  end.

End JSObject.

(** ** The storage module *)

Definition loadData : Async Document :=
  λ st, (Returned (default ∅ (semester_task_manager st)), st).

Definition loadSemesters : Async (list string) :=
  λ st, (Returned (default [] (semesters_list st)), st).

Definition saveSemesters (semesters : list string) : Async unit :=
  λ st, (Returned (), mkStorage (semester_task_manager st) (Some semesters)).

Definition saveData (data : Document) : Async unit :=
  λ st, (Returned (), mkStorage (Some data) (semesters_list st)).

Definition addSemester (semesterName : string) : Async unit :=
  semesters ← loadSemesters;
  if negb (Array.includes semesters semesterName) then
    saveSemesters (semesters ++ [semesterName])%list
  else mret ().

Definition deleteSemester (semesterName : string) : Async unit :=
  semesters ← loadSemesters;
  let updatedSemesters := filter (λ s, s ≠ semesterName) semesters in
  saveSemesters updatedSemesters;;
  data ← loadData;
  saveData (delete semesterName data).

(** What [JSON.stringify] keeps of [data] after [data[key] = b] for the
    built-in [b] that the name [k] is inherited as.  [Object.prototype]
    (the name ["__proto__"]) has no enumerable property of its own and is
    written as [{}]; a function value is left out, with its key. *)
Definition assign_builtin (data : Document) (key k : string) : Document :=
  let written :=
    if bool_decide (k = "__proto__") then <[key := ∅]> data
    else delete key data in
  match data !! key with
  | Some _ => written
  | None => if bool_decide (key = "__proto__") then data else written
  end.

Definition updateSemester (oldName newName : string) : Async unit :=
  if bool_decide (oldName = newName) then mret ()
  else
    semesters ← loadSemesters;
    if Array.includes semesters newName then
      throw (Error "A semester with this name already exists")
    else
      let updatedSemesters :=
        (λ s, if bool_decide (s = oldName) then newName else s) <$> semesters in
      saveSemesters updatedSemesters;;
      data ← loadData;
      match JSObject.get data oldName with
      | JSObject.Own subtree =>
          saveData (delete oldName (JSObject.assign data newName subtree))
      | JSObject.Builtin k =>
          saveData (delete oldName (assign_builtin data newName k))
      | JSObject.Undefined => mret ()
      end.

(** [data[semester] || {}].  For a semester that is not stored and whose
    name is inherited, the value is a built-in, which the callers then
    treat as the semester record. *)
Definition getSemesterData (semester : string) : Async SemesterRecord :=
  data ← loadData;
  match JSObject.get data semester with
  | JSObject.Own semesterData => mret semesterData
  | JSObject.Builtin _ => escape
  | JSObject.Undefined => mret ∅
  end.

Definition saveSemesterData (semester : string) (semesterData : SemesterRecord)
  : Async unit :=
  data ← loadData;
  saveData (JSObject.assign data semester semesterData).

(** The default parameter value of [addSubject]. *)
Definition addSubject_default_colorTag : string := "#6C63FF".

(** [colorTag = None] is a call that leaves the third argument out. *)
Definition addSubject (semester subjectName : string) (colorTag : option string)
  : Async unit :=
  let colorTag := default addSubject_default_colorTag colorTag in
  semesterData ← getSemesterData semester;
  match JSObject.get semesterData subjectName with
  | JSObject.Undefined =>
      saveSemesterData semester
        (JSObject.assign semesterData subjectName
           (mkSubject (Some []) (Some colorTag)))
  | JSObject.Own _ | JSObject.Builtin _ => mret ()
  end.

Definition deleteSubject (semester subjectName : string) : Async unit :=
  semesterData ← getSemesterData semester;
  saveSemesterData semester (delete subjectName semesterData).

(** [{ ...old, colorTag }]: the own enumerable fields of [old] (none when
    [old] is [undefined] or a built-in) with [colorTag] set. *)
Definition spread_with_colorTag (old : JSObject.member SubjectRecord) (c : string)
  : SubjectRecord :=
  match old with
  | JSObject.Own o => mkSubject (tasks o) (Some c)
  | JSObject.Builtin _ | JSObject.Undefined => mkSubject None (Some c)
  end.

(** With equal names on a name that is only inherited, the assignment
    [semesterData[old].colorTag = colorTag] writes a property of the
    built-in. *)
Definition updateSubject (semester oldSubjectName newSubjectName colorTag : string)
  : Async unit :=
  semesterData ← getSemesterData semester;
  if bool_decide (oldSubjectName ≠ newSubjectName) then
    match JSObject.get semesterData newSubjectName with
    | JSObject.Own _ | JSObject.Builtin _ =>
        throw (Error "A subject with this name already exists")
    | JSObject.Undefined =>
        let moved :=
          spread_with_colorTag (JSObject.get semesterData oldSubjectName) colorTag in
        saveSemesterData semester
          (delete oldSubjectName
             (JSObject.assign semesterData newSubjectName moved))
    end
  else
    match JSObject.get semesterData oldSubjectName with
    | JSObject.Own o =>
        saveSemesterData semester
          (<[oldSubjectName := mkSubject (tasks o) (Some colorTag)]> semesterData)
    | JSObject.Builtin _ => escape
    | JSObject.Undefined => throw TypeError
    end.

(** The record [addTask] creates for a subject it does not find. *)
Definition addTask_fresh_subject : SubjectRecord :=
  mkSubject (Some []) (Some "#6C63FF").

(** A built-in has no [tasks] property, so [.tasks.push] is
    [undefined.push]. *)
Definition addTask (semester subject : string) (task : Task) : Async unit :=
  semesterData ← getSemesterData semester;
  let semesterData :=
    match JSObject.get semesterData subject with
    | JSObject.Undefined =>
        JSObject.assign semesterData subject addTask_fresh_subject
    | JSObject.Own _ | JSObject.Builtin _ => semesterData
    end in
  match JSObject.get semesterData subject with
  | JSObject.Own s =>
      match tasks s with
      | Some ts =>
          saveSemesterData semester
            (<[subject := mkSubject (Some (ts ++ [task])%list) (colorTag s)]> semesterData)
      | None => throw TypeError
      end
  | JSObject.Builtin _ | JSObject.Undefined => throw TypeError
  end.

(** The assignment [tasks[taskIndex] = updatedTask] is only reached when
    [tasks[taskIndex]] is an existing task, so it never extends the array.
    On a built-in, [.tasks[taskIndex]] is [undefined[taskIndex]]. *)
Definition updateTask (semester subject : string) (taskIndex : Z)
  (updatedTask : Task) : Async unit :=
  semesterData ← getSemesterData semester;
  match JSObject.get semesterData subject with
  | JSObject.Undefined => mret ()
  | JSObject.Builtin _ => throw TypeError
  | JSObject.Own s =>
      match tasks s with
      | None => throw TypeError
      | Some ts =>
          match Array.get ts taskIndex with
          | Some _ =>
              saveSemesterData semester
                (<[subject :=
                     mkSubject (Some (<[Z.to_nat taskIndex := updatedTask]> ts))
                               (colorTag s)]> semesterData)
          | None => mret ()
          end
      end
  end.

Definition deleteTask (semester subject : string) (taskIndex : Z) : Async unit :=
  semesterData ← getSemesterData semester;
  match JSObject.get semesterData subject with
  | JSObject.Undefined => mret ()
  | JSObject.Builtin _ => throw TypeError
  | JSObject.Own s =>
      match tasks s with
      | None => throw TypeError
      | Some ts =>
          saveSemesterData semester
            (<[subject := mkSubject (Some (Array.splice ts taskIndex 1)) (colorTag s)]>
               semesterData)
      end
  end.

Definition toggle (t : Task) : Task :=
  mkTask (title t) (dueDate t) (negb (completed t)).

Definition toggleTaskCompletion (semester subject : string) (taskIndex : Z)
  : Async unit :=
  semesterData ← getSemesterData semester;
  match JSObject.get semesterData subject with
  | JSObject.Undefined => mret ()
  | JSObject.Builtin _ => throw TypeError
  | JSObject.Own s =>
      match tasks s with
      | None => throw TypeError
      | Some ts =>
          match Array.get ts taskIndex with
          | Some t =>
              saveSemesterData semester
                (<[subject :=
                     mkSubject (Some (<[Z.to_nat taskIndex := toggle t]> ts))
                               (colorTag s)]> semesterData)
          | None => mret ()
          end
      end
  end.

(** ** Reading the persisted state *)

(** What [loadData] yields: the stored root document, [{}] when missing. *)
Definition document (st : AsyncStorage) : Document :=
  default ∅ (semester_task_manager st).

(** What [loadSemesters] yields: the stored index, [[]] when missing. *)
Definition semesterNames (st : AsyncStorage) : list string :=
  default [] (semesters_list st).

(** The subjects stored for [semester], none when the document has no
    such key. *)
Definition semesterData (st : AsyncStorage) (semester : string) : SemesterRecord :=
  default ∅ (document st !! semester).

(** The storage after a whole-document save of [data]. *)
Definition saved (data : Document) (st : AsyncStorage) : AsyncStorage :=
  mkStorage (Some data) (semesters_list st).

Definition duplicate_semester : exn :=
  Error "A semester with this name already exists".

Definition duplicate_subject : exn :=
  Error "A subject with this name already exists".

(** A name that no object inherits. *)
Definition plain (k : string) : Prop := JSObject.inherited k = false.

(** [data[semester]] is a stored semester or [undefined], not a
    built-in: the semester is a key of the document or its name is plain. *)
Definition ordinary_semester (st : AsyncStorage) (semester : string) : Prop :=
  is_Some (document st !! semester) ∨ plain semester.

(** ** The earlier revision of the module

    The repository also carries the revision of [storage.js] that predates
    the semester index.  Apart from the default colour it differs from the
    one above in [updateSubject], which has no duplicate-name guard. *)

Module Legacy.

Definition updateSubject (semester oldSubjectName newSubjectName colorTag : string)
  : Async unit :=
  semesterData ← getSemesterData semester;
  if bool_decide (oldSubjectName ≠ newSubjectName) then
    let moved :=
      spread_with_colorTag (JSObject.get semesterData oldSubjectName) colorTag in
    saveSemesterData semester
      (delete oldSubjectName (JSObject.assign semesterData newSubjectName moved))
  else
    match JSObject.get semesterData oldSubjectName with
    | JSObject.Own o =>
        saveSemesterData semester
          (<[oldSubjectName := mkSubject (tasks o) (Some colorTag)]> semesterData)
    | JSObject.Builtin _ => escape
    | JSObject.Undefined => throw TypeError
    end.

End Legacy.

(** ** The task screen's reload

    [loadTasks] of [TaskScreen]: [shown] is the [tasks] state of the
    component, the result the state after the reload.  [setTasks] is
    called when [data[subject]] is truthy, which a stored subject and an
    inherited name are; an empty array is truthy, so [tasks || []] only
    replaces a missing field, as on a built-in. *)
Definition loadTasks (semester subject : string) (shown : list Task)
  : Async (list Task) :=
  data ← getSemesterData semester;
  match JSObject.get data subject with
  | JSObject.Own s => mret (default [] (tasks s))
  | JSObject.Builtin _ => mret []
  | JSObject.Undefined => mret shown
  end.

(** ** Calls of the module

    The mutating functions the screens call, with their arguments. *)
Inductive Call :=
  | AddSemester (semesterName : string)
  | DeleteSemester (semesterName : string)
  | UpdateSemester (oldName newName : string)
  | AddSubject (semester subjectName : string) (colorTag : option string)
  | DeleteSubject (semester subjectName : string)
  | UpdateSubject (semester oldSubjectName newSubjectName colorTag : string)
  | AddTask (semester subject : string) (task : Task)
  | UpdateTask (semester subject : string) (taskIndex : Z) (updatedTask : Task)
  | DeleteTask (semester subject : string) (taskIndex : Z)
  | ToggleTaskCompletion (semester subject : string) (taskIndex : Z).

Definition perform (c : Call) : Async unit :=
  match c with
  | AddSemester x => addSemester x
  | DeleteSemester x => deleteSemester x
  | UpdateSemester a b => updateSemester a b
  | AddSubject sem n c => addSubject sem n c
  | DeleteSubject sem n => deleteSubject sem n
  | UpdateSubject sem a b c => updateSubject sem a b c
  | AddTask sem n t => addTask sem n t
  | UpdateTask sem n i t => updateTask sem n i t
  | DeleteTask sem n i => deleteTask sem n i
  | ToggleTaskCompletion sem n i => toggleTaskCompletion sem n i
  end.

(** The storage a call leaves behind, whether it returned or threw. *)
Definition after (c : Call) (st : AsyncStorage) : AsyncStorage :=
  snd (perform c st).

(** The storage after a series of calls, each awaited before the next. *)
Definition afterAll (cs : list Call) (st : AsyncStorage) : AsyncStorage :=
  foldl (λ st c, after c st) st cs.

(** The calls that work on the semester index. *)
Definition on_index (c : Call) : bool :=
  match c with
  | AddSemester _ | DeleteSemester _ | UpdateSemester _ _ => true
  | _ => false
  end.

(** The semester and subject names a call passes. *)
Definition names_of (c : Call) : list string :=
  match c with
  | AddSemester x | DeleteSemester x => [x]
  | UpdateSemester a b => [a; b]
  | AddSubject sem n _ | DeleteSubject sem n | AddTask sem n _
  | UpdateTask sem n _ _ | DeleteTask sem n _ | ToggleTaskCompletion sem n _ =>
      [sem; n]
  | UpdateSubject sem a b _ => [sem; a; b]
  end.

(** The semester and the subject a task call works on. *)
Definition task_target (c : Call) : option (string * string) :=
  match c with
  | AddTask sem n _ | UpdateTask sem n _ _ | DeleteTask sem n _
  | ToggleTaskCompletion sem n _ => Some (sem, n)
  | _ => None
  end.

(** A call all of whose names are plain: it meets no built-in. *)
Definition plain_call (c : Call) : Prop := Forall plain (names_of c).

(** A rename (to another name) of a subject the semester does not have. *)
Definition renames_absent_subject (c : Call) (st : AsyncStorage) : Prop :=
  match c with
  | UpdateSubject sem a b _ => a ≠ b ∧ semesterData st sem !! a = None
  | _ => False
  end.

(** [P] holds of every subject record of the stored document. *)
Definition every_subject (P : SubjectRecord → Prop) (st : AsyncStorage) : Prop :=
  ∀ semester sd subject s,
    document st !! semester = Some sd → sd !! subject = Some s → P s.

Definition has_tasks (s : SubjectRecord) : Prop := is_Some (tasks s).
Definition has_colorTag (s : SubjectRecord) : Prop := is_Some (colorTag s).

(** ** Concrete stores *)

Module Scenario.

Definition hw1 : Task := mkTask "HW1" "2025-01-10" false.
Definition hw2 : Task := mkTask "HW2" "2025-01-17" false.
Definition hw3 : Task := mkTask "HW3" "2025-01-24" true.

(** Nothing was ever written. *)
Definition fresh_install : AsyncStorage := mkStorage None None.

(** [{"Semester 1": {"Math": {"colorTag": "#222222"}}}]: the subject
    record has no [tasks] field. *)
Definition colorTag_only : AsyncStorage :=
  mkStorage
    (Some {[ "Semester 1" := {[ "Math" := mkSubject None (Some "#222222") ]} ]})
    None.

(** The same subject stored with an empty task array. *)
Definition no_tasks_yet : AsyncStorage :=
  mkStorage
    (Some {[ "Semester 1" := {[ "Math" := mkSubject (Some []) (Some "#222222") ]} ]})
    None.

(** Two semesters in the index; "Semester 1" has "Math" with three tasks
    and "Physics" with none. *)
Definition two_semesters : AsyncStorage :=
  mkStorage
    (Some {[ "Semester 1" :=
               {[ "Math" := mkSubject (Some [hw1; hw2; hw3]) (Some "#111111");
                  "Physics" := mkSubject (Some []) (Some "#03dac6") ]} ]})
    (Some ["Semester 1"; "Semester 2"]).

End Scenario.

(** Closed decidable side conditions. *)
Ltac by_evaluation := apply (bool_decide_unpack _); vm_compute; exact I.

(** ** Running the monad *)

Section Run.

Context {A B : Type}.

Lemma bind_run (m : Async A) (k : A → Async B) (st : AsyncStorage) :
  (m ≫= k) st =
    match m st with
    | (Returned a, st') => k a st'
    | (Threw e, st') => (Threw e, st')
    | (Escapes, st') => (Escapes, st')
    end.
Proof. reflexivity. Qed.

Lemma ret_run (a : A) (st : AsyncStorage) :
  (mret a : Async A) st = (Returned a, st).
Proof. reflexivity. Qed.

Lemma throw_run (e : exn) (st : AsyncStorage) :
  throw (A := A) e st = (Threw e, st).
Proof. reflexivity. Qed.

End Run.

(** *** Property reads and assignments *)

Section Members.

Context {A : Type}.
Implicit Types (obj : gmap string A) (k : string).

Lemma get_own obj k a : obj !! k = Some a → JSObject.get obj k = JSObject.Own a.
Proof. intros H. unfold JSObject.get. by rewrite H. Qed.

Lemma get_undefined obj k :
  obj !! k = None → plain k → JSObject.get obj k = JSObject.Undefined.
Proof. intros H Hk. unfold JSObject.get. by rewrite H, Hk. Qed.

Lemma get_builtin obj k :
  obj !! k = None → JSObject.inherited k = true →
  JSObject.get obj k = JSObject.Builtin k.
Proof. intros H Hk. unfold JSObject.get. by rewrite H, Hk. Qed.

Lemma plain_not_proto k : plain k → k ≠ "__proto__".
Proof. intros Hk ->. vm_compute in Hk. discriminate. Qed.

Lemma assign_own obj k v :
  is_Some (obj !! k) → JSObject.assign obj k v = <[k := v]> obj.
Proof. intros [a H]. unfold JSObject.assign. by rewrite H. Qed.

Lemma assign_plain obj k v : plain k → JSObject.assign obj k v = <[k := v]> obj.
Proof.
  intros Hk%plain_not_proto. unfold JSObject.assign.
  destruct (obj !! k); [done|]. by rewrite bool_decide_eq_false_2.
Qed.

Lemma assign_not_proto obj k v :
  k ≠ "__proto__" → JSObject.assign obj k v = <[k := v]> obj.
Proof.
  intros Hk. unfold JSObject.assign.
  destruct (obj !! k); [done|]. by rewrite bool_decide_eq_false_2.
Qed.

(** On an object without such an own property, assigning ["__proto__"]
    adds nothing. *)
Lemma assign_proto obj v :
  obj !! "__proto__" = None → JSObject.assign obj "__proto__" v = obj.
Proof. intros H. unfold JSObject.assign. by rewrite H. Qed.

End Members.

Lemma loadData_run st : loadData st = (Returned (document st), st).
Proof. reflexivity. Qed.

Lemma loadSemesters_run st : loadSemesters st = (Returned (semesterNames st), st).
Proof. reflexivity. Qed.

Lemma stored_ordinary st semester subject s :
  semesterData st semester !! subject = Some s → ordinary_semester st semester.
Proof.
  intros Hs. left. unfold semesterData in Hs.
  destruct (document st !! semester); [by eexists|].
  simpl in Hs. by rewrite lookup_empty in Hs.
Qed.

Lemma getSemesterData_run semester st :
  ordinary_semester st semester →
  getSemesterData semester st = (Returned (semesterData st semester), st).
Proof.
  intros Hord. unfold getSemesterData, semesterData.
  rewrite bind_run, loadData_run.
  destruct (document st !! semester) as [sd|] eqn:Hsd.
  - by rewrite (get_own _ _ _ Hsd).
  - destruct Hord as [[sd Hsd']|Hplain]; [congruence|].
    by rewrite get_undefined.
Qed.

(** For a semester that is not stored and has an inherited name, the
    semester record the callers get is a built-in. *)
Lemma getSemesterData_builtin semester st :
  document st !! semester = None →
  JSObject.inherited semester = true →
  getSemesterData semester st = (Escapes, st).
Proof.
  intros Hsd Hk. unfold getSemesterData.
  rewrite bind_run, loadData_run. by rewrite get_builtin.
Qed.

Lemma saveSemesterData_run semester sd st :
  ordinary_semester st semester →
  saveSemesterData semester sd st =
    (Returned (), saved (<[semester := sd]> (document st)) st).
Proof.
  intros Hord. unfold saveSemesterData.
  rewrite bind_run, loadData_run.
  destruct Hord as [Hown|Hplain].
  - by rewrite assign_own.
  - by rewrite assign_plain.
Qed.

(** Discharges [ordinary_semester] from a stored subject or an
    assumption. *)
Ltac ord := first [ assumption | eapply stored_ordinary; eassumption ].

Lemma includes_true (arr : list string) x : x ∈ arr → Array.includes arr x = true.
Proof. intros H. unfold Array.includes. by apply bool_decide_eq_true. Qed.

Lemma includes_false (arr : list string) x : x ∉ arr → Array.includes arr x = false.
Proof. intros H. unfold Array.includes. by apply bool_decide_eq_false. Qed.

(** Reading back after a save of one semester record. *)

Lemma document_saved data st : document (saved data st) = data.
Proof. reflexivity. Qed.

Lemma semesterNames_saved data st : semesterNames (saved data st) = semesterNames st.
Proof. reflexivity. Qed.

Lemma semesterData_saved_eq semester sd st :
  semesterData (saved (<[semester := sd]> (document st)) st) semester = sd.
Proof. unfold semesterData. by rewrite document_saved, lookup_insert_eq. Qed.

Lemma document_saved_ne semester semester' sd st :
  semester' ≠ semester →
  document (saved (<[semester := sd]> (document st)) st) !! semester'
    = document st !! semester'.
Proof. intros Hne. by rewrite document_saved, lookup_insert_ne. Qed.

Lemma ordinary_saved semester sd st :
  ordinary_semester (saved (<[semester := sd]> (document st)) st) semester.
Proof. left. rewrite document_saved, lookup_insert_eq. by eexists. Qed.

(** A stored subject lives in a stored semester. *)
Lemma semesterData_lookup_Some st semester subject s :
  semesterData st semester !! subject = Some s →
  document st !! semester = Some (semesterData st semester).
Proof.
  unfold semesterData. destruct (document st !! semester) as [sd|]; simpl; [done|].
  by rewrite lookup_empty.
Qed.

Lemma document_lookup_Some st semester sd :
  document st !! semester = Some sd →
  semester_task_manager st = Some (document st).
Proof.
  unfold document. destruct (semester_task_manager st); simpl; [done|].
  by rewrite lookup_empty.
Qed.

(** Saving back a semester record that is already stored changes nothing. *)
Lemma saved_id st semester subject s :
  semesterData st semester !! subject = Some s →
  saved (<[semester := semesterData st semester]> (document st)) st = st.
Proof.
  intros Hs. pose proof (semesterData_lookup_Some _ _ _ _ Hs) as Hd.
  pose proof (document_lookup_Some _ _ _ Hd) as Hm.
  rewrite insert_id by done. unfold saved. rewrite <- Hm. by destruct st.
Qed.

(** ** Semesters *)

Lemma addSemester_fresh x st :
  x ∉ semesterNames st →
  addSemester x st =
    (Returned (), mkStorage (semester_task_manager st) (Some (semesterNames st ++ [x])%list)).
Proof.
  intros Hx. unfold addSemester.
  rewrite bind_run, loadSemesters_run, includes_false by done. reflexivity.
Qed.

Lemma addSemester_known x st :
  x ∈ semesterNames st → addSemester x st = (Returned (), st).
Proof.
  intros Hx. unfold addSemester.
  rewrite bind_run, loadSemesters_run, includes_true by done. reflexivity.
Qed.

Lemma occurrences_absent (x : string) (l : list string) :
  x ∉ l → filter (λ y, y = x) l = [].
Proof.
  induction l as [|y l IH]; intros Hx; [done|].
  apply not_elem_of_cons in Hx as [Hne Hl].
  rewrite filter_cons_False by congruence. auto.
Qed.

(** C6. [addSemester x] appends [x] at the end of the semester index when
    [x] is not in it (the root document is untouched) and changes nothing
    when [x] is already there; so calling it twice from an index without
    [x] leaves the old names in order followed by exactly one [x]. *)
Theorem addSemester_appends_once (x : string) (st : AsyncStorage) :
  (x ∉ semesterNames st →
     ∃ st', addSemester x st = (Returned (), st')
       ∧ semesterNames st' = (semesterNames st ++ [x])%list
       ∧ semester_task_manager st' = semester_task_manager st)
  ∧ (x ∈ semesterNames st → addSemester x st = (Returned (), st))
  ∧ (x ∉ semesterNames st →
     ∃ st'', (addSemester x ;; addSemester x) st = (Returned (), st'')
       ∧ semesterNames st'' = (semesterNames st ++ [x])%list
       ∧ length (filter (λ y, y = x) (semesterNames st'')) = 1%nat).
Proof.
  split; [|split].
  - intros Hx. eexists. split; [by apply addSemester_fresh|]. done.
  - apply addSemester_known.
  - intros Hx. eexists. split.
    + rewrite bind_run, addSemester_fresh by done.
      apply addSemester_known. simpl. set_solver.
    + split; [done|]. unfold semesterNames at 1. simpl.
      rewrite filter_app, occurrences_absent by done.
      by rewrite filter_cons_True.
Qed.

(** C1. Renaming a semester to a different name that is already in the
    index throws the duplicate-name error and leaves the whole storage as
    it was: neither the index nor any subtree of the root document is
    modified. *)
Theorem updateSemester_duplicate (a b : string) (st : AsyncStorage) :
  b ∈ semesterNames st →
  b ≠ a →
  updateSemester a b st = (Threw duplicate_semester, st).
Proof.
  intros Hb Hne. unfold updateSemester.
  rewrite bool_decide_eq_false_2 by congruence.
  rewrite bind_run, loadSemesters_run, includes_true by done.
  reflexivity.
Qed.

(** ** Subjects *)

(** C2. Renaming a subject to a different name that is already a subject of
    the semester throws the duplicate-name error and leaves the whole
    storage, hence the semester record with both subjects and their tasks,
    as it was. *)
Theorem updateSubject_duplicate (semester old new c : string)
  (st : AsyncStorage) (s : SubjectRecord) :
  new ≠ old →
  semesterData st semester !! new = Some s →
  updateSubject semester old new c st = (Threw duplicate_subject, st).
Proof.
  intros Hne Hnew. unfold updateSubject.
  rewrite bind_run, getSemesterData_run by ord.
  rewrite bool_decide_eq_true_2 by congruence.
  rewrite (get_own _ _ _ Hnew). reflexivity.
Qed.

(** What a successful rename-to-self stores. *)
Lemma updateSubject_self_run semester n c st s :
  semesterData st semester !! n = Some s →
  updateSubject semester n n c st =
    (Returned (),
     saved (<[semester := <[n := mkSubject (tasks s) (Some c)]> (semesterData st semester)]>
              (document st)) st).
Proof.
  intros Hs. unfold updateSubject.
  rewrite bind_run, getSemesterData_run by ord.
  rewrite bool_decide_eq_false_2 by (intros H; by apply H).
  rewrite (get_own _ _ _ Hs). apply saveSemesterData_run. ord.
Qed.

(** C7. Renaming a subject to its own current name sets its [colorTag] to
    the given value and keeps its task sequence; every other subject of
    the semester, every other semester and the index are unchanged. *)
Theorem updateSubject_self_sets_colorTag (semester n c : string)
  (st : AsyncStorage) (s : SubjectRecord) :
  semesterData st semester !! n = Some s →
  ∃ st', updateSubject semester n n c st = (Returned (), st')
    ∧ semesterData st' semester !! n = Some (mkSubject (tasks s) (Some c))
    ∧ (∀ n', n' ≠ n → semesterData st' semester !! n' = semesterData st semester !! n')
    ∧ (∀ semester', semester' ≠ semester →
         document st' !! semester' = document st !! semester')
    ∧ semesterNames st' = semesterNames st.
Proof.
  intros Hs. eexists. split; [by apply updateSubject_self_run|].
  rewrite semesterData_saved_eq. split; [by rewrite lookup_insert_eq|].
  split; [intros n' Hn'; by rewrite lookup_insert_ne|].
  split; [intros semester' Hne; by apply document_saved_ne|done].
Qed.

(** What [addSubject] does on each kind of name. *)
Lemma addSubject_plain_run semester name c st :
  ordinary_semester st semester →
  semesterData st semester !! name = None →
  plain name →
  addSubject semester name c st =
    (Returned (),
     saved (<[semester :=
               <[name := mkSubject (Some []) (Some (default addSubject_default_colorTag c))]>
                 (semesterData st semester)]> (document st)) st).
Proof.
  intros Hord Hn Hplain. unfold addSubject.
  rewrite bind_run, getSemesterData_run by done.
  rewrite get_undefined, assign_plain by done.
  by apply saveSemesterData_run.
Qed.

Lemma addSubject_inherited_run semester name c st :
  ordinary_semester st semester →
  semesterData st semester !! name = None →
  JSObject.inherited name = true →
  addSubject semester name c st = (Returned (), st).
Proof.
  intros Hord Hn Hk. unfold addSubject.
  rewrite bind_run, getSemesterData_run by done.
  by rewrite get_builtin.
Qed.

Lemma addSubject_stored_run semester name c st s :
  semesterData st semester !! name = Some s →
  addSubject semester name c st = (Returned (), st).
Proof.
  intros Hs. unfold addSubject.
  rewrite bind_run, getSemesterData_run by ord.
  by rewrite (get_own _ _ _ Hs).
Qed.

(** [addSubject] on a semester that is stored or has a plain name: a plain
    name that is not a subject is stored with an empty task array and the
    given [colorTag] (the parameter's default when none is given), nothing
    else changing; a name that is a subject, or that is only inherited,
    leaves the storage as it is. *)
Theorem addSubject_inserts_iff_absent (semester name : string)
  (c : option string) (st : AsyncStorage) :
  ordinary_semester st semester →
  (semesterData st semester !! name = None →
   plain name →
     ∃ st', addSubject semester name c st = (Returned (), st')
       ∧ semesterData st' semester !! name
           = Some (mkSubject (Some []) (Some (default addSubject_default_colorTag c)))
       ∧ (∀ n', n' ≠ name →
            semesterData st' semester !! n' = semesterData st semester !! n')
       ∧ (∀ semester', semester' ≠ semester →
            document st' !! semester' = document st !! semester')
       ∧ semesterNames st' = semesterNames st)
  ∧ (∀ s, semesterData st semester !! name = Some s →
       addSubject semester name c st = (Returned (), st))
  ∧ (semesterData st semester !! name = None →
     JSObject.inherited name = true →
       addSubject semester name c st = (Returned (), st)).
Proof.
  intros Hord. split; [|split].
  - intros Hn Hplain. eexists. split; [by apply addSubject_plain_run|].
    rewrite semesterData_saved_eq. split; [by rewrite lookup_insert_eq|].
    split; [intros n' Hn'; by rewrite lookup_insert_ne|].
    split; [intros semester' Hne; by apply document_saved_ne|done].
  - intros s Hs. by eapply addSubject_stored_run.
  - intros Hn Hk. by apply addSubject_inherited_run.
Qed.

(** C9 as amended. When [old] is not a subject of the semester, [new]
    differs from it, and [new] is neither a subject nor an inherited name
    (the semester being stored or plainly named), [updateSubject] returns
    normally and is not a no-op: it saves the document with a record at
    [new] that has a [colorTag] and no [tasks] field, and removes nothing:
    every other subject, every other semester and the index are as
    before. *)
Theorem updateSubject_absent_source (semester old new c : string)
  (st : AsyncStorage) :
  ordinary_semester st semester →
  semesterData st semester !! old = None →
  new ≠ old →
  semesterData st semester !! new = None →
  plain new →
  ∃ st', updateSubject semester old new c st = (Returned (), st')
    ∧ st' ≠ st
    ∧ semester_task_manager st' = Some (document st')
    ∧ semesterData st' semester !! new = Some (mkSubject None (Some c))
    ∧ (∀ n', n' ≠ new → semesterData st' semester !! n' = semesterData st semester !! n')
    ∧ (∀ semester', semester' ≠ semester →
         document st' !! semester' = document st !! semester')
    ∧ semesterNames st' = semesterNames st.
Proof.
  intros Hord Hold Hne Hnew Hplain.
  assert (Hrun : updateSubject semester old new c st =
    (Returned (),
     saved (<[semester := delete old (<[new := mkSubject None (Some c)]>
                                         (semesterData st semester))]>
              (document st)) st)).
  { unfold updateSubject. rewrite bind_run, getSemesterData_run by done.
    rewrite bool_decide_eq_true_2 by congruence.
    rewrite (get_undefined _ new), assign_plain by done.
    replace (spread_with_colorTag (JSObject.get (semesterData st semester) old) c)
      with (mkSubject None (Some c)).
    - by apply saveSemesterData_run.
    - unfold JSObject.get. rewrite Hold. by destruct (JSObject.inherited old). }
  eexists. split; [exact Hrun|].
  assert (Hread : semesterData
    (saved (<[semester := delete old (<[new := mkSubject None (Some c)]>
                                        (semesterData st semester))]>
              (document st)) st) semester !! new = Some (mkSubject None (Some c))).
  { rewrite semesterData_saved_eq, lookup_delete_ne by congruence.
    by rewrite lookup_insert_eq. }
  split; [intros Heq; rewrite Heq in Hread; congruence|].
  split; [done|]. split; [exact Hread|].
  split.
  - intros n' Hn'. rewrite semesterData_saved_eq.
    destruct (decide (n' = old)) as [->|Hn'old].
    + by rewrite lookup_delete_eq.
    + by rewrite lookup_delete_ne, lookup_insert_ne.
  - split; [intros semester' Hs'; by apply document_saved_ne|done].
Qed.

(** ** Tasks *)

Lemma addTask_absent_run semester subject task st :
  ordinary_semester st semester →
  semesterData st semester !! subject = None →
  plain subject →
  addTask semester subject task st =
    (Returned (),
     saved (<[semester := <[subject := mkSubject (Some [task]) (Some "#6C63FF")]>
                            (semesterData st semester)]> (document st)) st).
Proof.
  intros Hord Hs Hplain. unfold addTask.
  rewrite bind_run, getSemesterData_run by done.
  cbv zeta. rewrite (get_undefined (semesterData st semester) subject) by done.
  rewrite assign_plain by done.
  rewrite (get_own _ _ addTask_fresh_subject) by apply lookup_insert_eq. simpl.
  rewrite saveSemesterData_run by done. by rewrite insert_insert_eq.
Qed.

Lemma addTask_present_run semester subject task st s ts :
  semesterData st semester !! subject = Some s →
  tasks s = Some ts →
  addTask semester subject task st =
    (Returned (),
     saved (<[semester := <[subject := mkSubject (Some (ts ++ [task])%list) (colorTag s)]>
                            (semesterData st semester)]> (document st)) st).
Proof.
  intros Hs Hts. unfold addTask. rewrite bind_run, getSemesterData_run by ord.
  cbv zeta. rewrite !(get_own _ _ _ Hs), Hts. apply saveSemesterData_run. ord.
Qed.

(** [undefined.push]: nothing is saved. *)
Lemma addTask_tasks_missing semester subject task st s :
  semesterData st semester !! subject = Some s →
  tasks s = None →
  addTask semester subject task st = (Threw TypeError, st).
Proof.
  intros Hs Hts. unfold addTask. rewrite bind_run, getSemesterData_run by ord.
  cbv zeta. rewrite !(get_own _ _ _ Hs), Hts. reflexivity.
Qed.

(** An inherited name is truthy: the subject is not created, and the
    built-in has no [tasks]. *)
Lemma addTask_inherited semester subject task st :
  ordinary_semester st semester →
  semesterData st semester !! subject = None →
  JSObject.inherited subject = true →
  addTask semester subject task st = (Threw TypeError, st).
Proof.
  intros Hord Hs Hk. unfold addTask. rewrite bind_run, getSemesterData_run by done.
  cbv zeta. rewrite (get_builtin (semesterData st semester) subject) by done.
  by rewrite get_builtin.
Qed.

(** [undefined.splice]: nothing is saved. *)
Lemma deleteTask_tasks_missing semester subject i st s :
  semesterData st semester !! subject = Some s →
  tasks s = None →
  deleteTask semester subject i st = (Threw TypeError, st).
Proof.
  intros Hs Hts. unfold deleteTask. rewrite bind_run, getSemesterData_run by ord.
  rewrite (get_own _ _ _ Hs), Hts. reflexivity.
Qed.

(** On a semester that is stored or plainly named, and a subject that is
    stored with a task array or is absent with a plain name, [addTask]
    returns and the subject then ends with the new task after the old
    ones. *)
Lemma addTask_appends semester subject task st :
  (ordinary_semester st semester ∧ plain subject
     ∧ semesterData st semester !! subject = None)
  ∨ (∃ s ts, semesterData st semester !! subject = Some s ∧ tasks s = Some ts) →
  ∃ st' s', addTask semester subject task st = (Returned (), st')
    ∧ semesterData st' semester !! subject = Some s'
    ∧ tasks s' = Some
        (default [] (semesterData st semester !! subject ≫= tasks) ++ [task])%list
    ∧ colorTag s' =
        match semesterData st semester !! subject with
        | Some s => colorTag s
        | None => Some "#6C63FF"
        end
    ∧ (∀ n', n' ≠ subject →
         semesterData st' semester !! n' = semesterData st semester !! n').
Proof.
  intros [(Hord & Hplain & Hs)|(s & ts & Hs & Hts)].
  - eexists _, _. split; [by apply addTask_absent_run|].
    rewrite semesterData_saved_eq, lookup_insert_eq. split; [reflexivity|].
    rewrite Hs.
    do 2 (split; [reflexivity|]). intros n' Hn'. by rewrite lookup_insert_ne.
  - eexists _, _.
    split; [exact (addTask_present_run semester subject task st s ts Hs Hts)|].
    rewrite semesterData_saved_eq, lookup_insert_eq. split; [reflexivity|].
    rewrite Hs. simpl. rewrite Hts.
    do 2 (split; [reflexivity|]). intros n' Hn'. by rewrite lookup_insert_ne.
Qed.

(** *** Array facts *)

Section ArrayFacts.

Context {A : Type}.
Implicit Types (arr : list A) (i j : Z).

Lemma get_in_range arr i :
  0 ≤ i < Z.of_nat (length arr) → is_Some (Array.get arr i).
Proof.
  intros [Hlo Hhi]. unfold Array.get.
  rewrite bool_decide_eq_true_2 by done.
  apply lookup_lt_is_Some. lia.
Qed.

Lemma get_out_of_range arr i :
  i < 0 ∨ Z.of_nat (length arr) ≤ i → Array.get arr i = None.
Proof.
  intros Hout. unfold Array.get. case_bool_decide; [|done].
  apply lookup_ge_None. lia.
Qed.

Lemma get_insert arr i j (x : A) :
  0 ≤ i < Z.of_nat (length arr) →
  Array.get (<[Z.to_nat i := x]> arr) j =
    if bool_decide (j = i) then Some x else Array.get arr j.
Proof.
  intros [Hlo Hhi]. unfold Array.get.
  destruct (decide (j = i)) as [->|Hji].
  - rewrite !bool_decide_eq_true_2 by done.
    apply list_lookup_insert_eq. lia.
  - rewrite (bool_decide_eq_false_2 (j = i)) by done.
    case_bool_decide; [|done].
    apply list_lookup_insert_ne. lia.
Qed.

(** A negative [start] within the array removes the element counted from
    the end. *)
Lemma splice_from_end arr i :
  - Z.of_nat (length arr) ≤ i ≤ -1 →
  Array.splice arr i 1 = delete (Z.to_nat (Z.of_nat (length arr) + i)) arr.
Proof.
  intros [Hlo Hhi]. unfold Array.splice.
  rewrite bool_decide_eq_true_2 by lia.
  rewrite delete_take_drop. f_equal; [f_equal; lia|f_equal; lia].
Qed.

Lemma splice_in_range arr i :
  0 ≤ i < Z.of_nat (length arr) →
  Array.splice arr i 1 = delete (Z.to_nat i) arr.
Proof.
  intros [Hlo Hhi]. unfold Array.splice.
  rewrite bool_decide_eq_false_2 by lia.
  rewrite delete_take_drop. f_equal; [f_equal; lia|f_equal; lia].
Qed.

(** A [start] at or past the end removes nothing. *)
Lemma splice_past_end arr i :
  Z.of_nat (length arr) ≤ i → Array.splice arr i 1 = arr.
Proof.
  intros Hi. unfold Array.splice.
  rewrite bool_decide_eq_false_2 by lia.
  replace (Z.to_nat (Z.min i (Z.of_nat (length arr)))) with (length arr) by lia.
  rewrite firstn_all, drop_ge by lia. apply app_nil_r.
Qed.

(** Whatever the index, what is left is a subsequence of the array: the
    surviving elements keep their relative order. *)
Lemma splice_sublist arr i : Array.splice arr i 1 `sublist_of` arr.
Proof.
  unfold Array.splice.
  set (a := Z.to_nat _). set (b := Z.to_nat _).
  assert (Hab : (a ≤ b)%nat) by (subst a b; case_bool_decide; lia).
  rewrite <- (take_drop a arr) at 3.
  apply sublist_app; [done|].
  replace b with (a + (b - a))%nat by lia.
  rewrite <- drop_drop. apply sublist_drop.
Qed.

End ArrayFacts.

(** *** [updateTask] *)

Lemma updateTask_in_range_run semester subject i t st s ts :
  semesterData st semester !! subject = Some s →
  tasks s = Some ts →
  0 ≤ i < Z.of_nat (length ts) →
  updateTask semester subject i t st =
    (Returned (),
     saved (<[semester :=
               <[subject := mkSubject (Some (<[Z.to_nat i := t]> ts)) (colorTag s)]>
                 (semesterData st semester)]> (document st)) st).
Proof.
  intros Hs Hts Hi. unfold updateTask.
  rewrite bind_run, getSemesterData_run, (get_own _ _ _ Hs), Hts by ord.
  destruct (get_in_range ts i Hi) as [t0 Ht0]. rewrite Ht0.
  apply saveSemesterData_run. ord.
Qed.

(** [undefined[taskIndex]]: on a record without a task array the guard of
    [updateTask] itself throws, whatever the index. *)
Lemma updateTask_tasks_missing semester subject i t st s :
  semesterData st semester !! subject = Some s →
  tasks s = None →
  updateTask semester subject i t st = (Threw TypeError, st).
Proof.
  intros Hs Hts. unfold updateTask.
  rewrite bind_run, getSemesterData_run, (get_own _ _ _ Hs), Hts by ord.
  reflexivity.
Qed.

(** The same on an inherited name, which passes the guard's first test. *)
Lemma updateTask_inherited semester subject i t st :
  ordinary_semester st semester →
  semesterData st semester !! subject = None →
  JSObject.inherited subject = true →
  updateTask semester subject i t st = (Threw TypeError, st).
Proof.
  intros Hord Hs Hk. unfold updateTask.
  rewrite bind_run, getSemesterData_run by done. by rewrite get_builtin.
Qed.

(** With the subject stored with a task array and [0 <= index < length],
    [updateTask] stores the given task at that index and nothing else
    changes: the array keeps its length and its other entries, the
    subject keeps its [colorTag], other subjects, other semesters and the
    index are untouched.  With the index outside the task array, or with a
    subject that is absent under a plain name (in a semester that is
    stored or plainly named), the call returns normally and the storage is
    exactly as before. *)
Theorem updateTask_replaces_or_skips (semester subject : string) (i : Z)
  (t : Task) (st : AsyncStorage) :
  (∀ s ts,
     semesterData st semester !! subject = Some s →
     tasks s = Some ts →
     0 ≤ i < Z.of_nat (length ts) →
     ∃ st' ts', updateTask semester subject i t st = (Returned (), st')
       ∧ semesterData st' semester !! subject = Some (mkSubject (Some ts') (colorTag s))
       ∧ length ts' = length ts
       ∧ (∀ j, Array.get ts' j = if bool_decide (j = i) then Some t else Array.get ts j)
       ∧ (∀ n', n' ≠ subject →
            semesterData st' semester !! n' = semesterData st semester !! n')
       ∧ (∀ semester', semester' ≠ semester →
            document st' !! semester' = document st !! semester')
       ∧ semesterNames st' = semesterNames st)
  ∧ (ordinary_semester st semester →
     plain subject →
     semesterData st semester !! subject = None →
       updateTask semester subject i t st = (Returned (), st))
  ∧ (∀ s ts,
       semesterData st semester !! subject = Some s →
       tasks s = Some ts →
       i < 0 ∨ Z.of_nat (length ts) ≤ i →
       updateTask semester subject i t st = (Returned (), st)).
Proof.
  split; [|split].
  - intros s ts Hs Hts Hi. eexists _, _.
    split; [by apply updateTask_in_range_run|].
    rewrite semesterData_saved_eq, lookup_insert_eq. split; [reflexivity|].
    split; [apply length_insert|].
    split; [intros j; by apply get_insert|].
    split; [intros n' Hn'; by rewrite lookup_insert_ne|].
    split; [intros semester' Hne; by apply document_saved_ne|done].
  - intros Hord Hplain Hs. unfold updateTask.
    rewrite bind_run, getSemesterData_run by done. by rewrite get_undefined.
  - intros s ts Hs Hts Hi. unfold updateTask.
    rewrite bind_run, getSemesterData_run, (get_own _ _ _ Hs), Hts by ord.
    rewrite get_out_of_range by done. reflexivity.
Qed.

(** *** [deleteTask] *)

Lemma deleteTask_run semester subject i st s ts :
  semesterData st semester !! subject = Some s →
  tasks s = Some ts →
  deleteTask semester subject i st =
    saveSemesterData semester
      (<[subject := mkSubject (Some (Array.splice ts i 1)) (colorTag s)]>
         (semesterData st semester)) st.
Proof.
  intros Hs Hts. unfold deleteTask.
  rewrite bind_run, getSemesterData_run, (get_own _ _ _ Hs), Hts by ord.
  reflexivity.
Qed.

(** C10. On a subject with [n >= 1] tasks, [deleteTask] always returns and
    stores the array left by [splice(index, 1)].  For [-n <= index <= -1]
    that array is the old one without the task at position [n + index];
    for [index >= n] it is the old array, the (unchanged) semester record
    still being saved, so the storage ends as it was.  For every index the
    tasks left are a subsequence of the old ones: they keep their relative
    order. *)
Theorem deleteTask_splice_index (semester subject : string) (i : Z)
  (st : AsyncStorage) (s : SubjectRecord) (ts : list Task) :
  semesterData st semester !! subject = Some s →
  tasks s = Some ts →
  (1 ≤ length ts)%nat →
  ∃ st' ts', deleteTask semester subject i st = (Returned (), st')
    ∧ semesterData st' semester !! subject = Some (mkSubject (Some ts') (colorTag s))
    ∧ (- Z.of_nat (length ts) ≤ i ≤ -1 →
         ts' = delete (Z.to_nat (Z.of_nat (length ts) + i)) ts
         ∧ length ts' = (length ts - 1)%nat)
    ∧ (Z.of_nat (length ts) ≤ i →
         ts' = ts
         ∧ deleteTask semester subject i st
             = saveSemesterData semester (semesterData st semester) st
         ∧ st' = st)
    ∧ ts' `sublist_of` ts.
Proof.
  intros Hs Hts Hn. eexists _, _.
  split; [rewrite (deleteTask_run _ _ _ _ _ _ Hs Hts); apply saveSemesterData_run; ord|].
  rewrite semesterData_saved_eq, lookup_insert_eq. split; [reflexivity|].
  split; [|split; [|apply splice_sublist]].
  - intros Hi. rewrite splice_from_end by done. split; [done|].
    rewrite length_delete; [done|]. apply lookup_lt_is_Some. lia.
  - intros Hi. rewrite (deleteTask_run _ _ _ _ _ _ Hs Hts).
    rewrite splice_past_end by done. split; [done|].
    assert (Hsame : <[subject := mkSubject (Some ts) (colorTag s)]>
                      (semesterData st semester) = semesterData st semester).
    { apply insert_id. rewrite Hs. f_equal. destruct s; simpl in *. by subst. }
    rewrite Hsame. split; [done|]. by eapply saved_id.
Qed.

(** ** Evaluations at concrete stores *)

(** C3. A stored subject record without a [tasks] field is not treated as
    one with an empty task array: on [colorTag_only] both [addTask] and
    [deleteTask] throw a [TypeError] and save nothing, whereas on
    [no_tasks_yet] both return normally. *)
Theorem missing_tasks_field_throws :
  semesterData Scenario.colorTag_only "Semester 1" !! "Math"
    = Some (mkSubject None (Some "#222222"))
  ∧ addTask "Semester 1" "Math" Scenario.hw1 Scenario.colorTag_only
      = (Threw TypeError, Scenario.colorTag_only)
  ∧ deleteTask "Semester 1" "Math" 0 Scenario.colorTag_only
      = (Threw TypeError, Scenario.colorTag_only)
  ∧ fst (addTask "Semester 1" "Math" Scenario.hw1 Scenario.no_tasks_yet) = Returned ()
  ∧ fst (deleteTask "Semester 1" "Math" 0 Scenario.no_tasks_yet) = Returned ().
Proof.
  assert (Hs : semesterData Scenario.colorTag_only "Semester 1" !! "Math"
               = Some (mkSubject None (Some "#222222"))) by (vm_compute; reflexivity).
  split; [exact Hs|].
  split; [by eapply addTask_tasks_missing|].
  split; [by eapply deleteTask_tasks_missing|].
  split; vm_compute; reflexivity.
Qed.

(** C4. [addTask] does not always succeed: on a fresh install, renaming the
    nonexistent subject "Ghost" to "Math" stores a "Math" record without a
    task array, and the [addTask] that follows throws a [TypeError]
    instead of appending. *)
Theorem addTask_after_fabricated_subject_throws :
  updateSubject "Semester 1" "Ghost" "Math" "#222222" Scenario.fresh_install
    = (Returned (), Scenario.colorTag_only)
  ∧ (updateSubject "Semester 1" "Ghost" "Math" "#222222" ;;
     addTask "Semester 1" "Math" Scenario.hw1) Scenario.fresh_install
    = (Threw TypeError, Scenario.colorTag_only).
Proof.
  assert (Hrename :
    updateSubject "Semester 1" "Ghost" "Math" "#222222" Scenario.fresh_install
      = (Returned (), Scenario.colorTag_only)) by (vm_compute; reflexivity).
  split; [exact Hrename|].
  rewrite bind_run, Hrename.
  eapply addTask_tasks_missing; [vm_compute; reflexivity|reflexivity].
Qed.

(** C5. [updateTask] is not a silent no-op whenever there is no task to
    replace: on [colorTag_only], where "Math" is stored without a task
    array, and on [two_semesters] for the subject name "toString", which
    is not stored but inherited, the guard's read of [.tasks[taskIndex]]
    throws a [TypeError]; nothing is saved. *)
Theorem updateTask_guard_throws :
  semesterData Scenario.colorTag_only "Semester 1" !! "Math"
    = Some (mkSubject None (Some "#222222"))
  ∧ updateTask "Semester 1" "Math" 0 Scenario.hw1 Scenario.colorTag_only
      = (Threw TypeError, Scenario.colorTag_only)
  ∧ semesterData Scenario.two_semesters "Semester 1" !! "toString" = None
  ∧ updateTask "Semester 1" "toString" 0 Scenario.hw1 Scenario.two_semesters
      = (Threw TypeError, Scenario.two_semesters).
Proof.
  assert (Hs : semesterData Scenario.colorTag_only "Semester 1" !! "Math"
               = Some (mkSubject None (Some "#222222"))) by (vm_compute; reflexivity).
  assert (Hn : semesterData Scenario.two_semesters "Semester 1" !! "toString" = None)
    by (vm_compute; reflexivity).
  split; [exact Hs|].
  split; [by eapply updateTask_tasks_missing|].
  split; [exact Hn|].
  apply updateTask_inherited; [|exact Hn|vm_compute; reflexivity].
  left. vm_compute. by eexists.
Qed.

(** C8. [addSubject] does not store every name that is not yet a subject:
    "constructor" is not a subject of "Semester 1" in [two_semesters], yet
    the guard [!semesterData[subjectName]] finds the inherited member and
    the call returns with the storage as it was, whereas the plain name
    "Chemistry" is stored. *)
Theorem addSubject_skips_inherited_name :
  semesterData Scenario.two_semesters "Semester 1" !! "constructor" = None
  ∧ addSubject "Semester 1" "constructor" (Some "#111111") Scenario.two_semesters
      = (Returned (), Scenario.two_semesters)
  ∧ semesterData
      (snd (addSubject "Semester 1" "Chemistry" (Some "#111111") Scenario.two_semesters))
      "Semester 1" !! "Chemistry"
    = Some (mkSubject (Some []) (Some "#111111")).
Proof.
  assert (Hn : semesterData Scenario.two_semesters "Semester 1" !! "constructor" = None)
    by (vm_compute; reflexivity).
  split; [exact Hn|].
  split.
  - apply addSubject_inherited_run; [|exact Hn|vm_compute; reflexivity].
    left. vm_compute. by eexists.
  - vm_compute. reflexivity.
Qed.

(** C9 as stated fails: with [old] absent and [new ≠ old] alone the call
    can throw, namely when [new] is already a subject. *)
Lemma rename_absent_subject_onto_taken_name :
  ¬ (∀ (semester old new c : string) (st : AsyncStorage),
       semesterData st semester !! old = None →
       new ≠ old →
       ∃ st', updateSubject semester old new c st = (Returned (), st')
         ∧ semesterData st' semester !! new = Some (mkSubject None (Some c))).
Proof.
  intros Hclaim.
  destruct (Hclaim "Semester 1" "Ghost" "Math" "#222222" Scenario.two_semesters)
    as (st' & Hrun & _).
  - vm_compute. reflexivity.
  - discriminate.
  - vm_compute in Hrun. discriminate.
Qed.

(** ** The theorems at concrete stores *)

Lemma two_semesters_ordinary : ordinary_semester Scenario.two_semesters "Semester 1".
Proof. left. vm_compute. by eexists. Qed.

Lemma addSemester_appends_once_witness :
  (∃ st', addSemester "Semester 3" Scenario.two_semesters = (Returned (), st')
     ∧ semesterNames st' = ["Semester 1"; "Semester 2"; "Semester 3"]
     ∧ semester_task_manager st' = semester_task_manager Scenario.two_semesters)
  ∧ addSemester "Semester 2" Scenario.two_semesters
      = (Returned (), Scenario.two_semesters)
  ∧ (∃ st'', (addSemester "Semester 3" ;; addSemester "Semester 3")
               Scenario.two_semesters = (Returned (), st'')
       ∧ semesterNames st'' = ["Semester 1"; "Semester 2"; "Semester 3"]
       ∧ length (filter (λ y, y = "Semester 3") (semesterNames st'')) = 1%nat).
Proof.
  destruct (addSemester_appends_once "Semester 3" Scenario.two_semesters)
    as (Hfresh & _ & Htwice).
  destruct (addSemester_appends_once "Semester 2" Scenario.two_semesters)
    as (_ & Hknown & _).
  split; [apply Hfresh; by_evaluation|].
  split; [apply Hknown; by_evaluation|].
  apply Htwice; by_evaluation.
Defined.

Lemma updateSemester_duplicate_witness :
  updateSemester "Semester 1" "Semester 2" Scenario.two_semesters
    = (Threw duplicate_semester, Scenario.two_semesters).
Proof.
  apply updateSemester_duplicate; [by_evaluation|by_evaluation].
Defined.

Lemma updateSubject_duplicate_witness :
  updateSubject "Semester 1" "Math" "Physics" "#222222" Scenario.two_semesters
    = (Threw duplicate_subject, Scenario.two_semesters).
Proof.
  apply (updateSubject_duplicate _ _ _ _ _ (mkSubject (Some []) (Some "#03dac6")));
    [by_evaluation|vm_compute; reflexivity].
Defined.

Lemma updateSubject_self_sets_colorTag_witness :
  ∃ st', updateSubject "Semester 1" "Math" "Math" "#222222" Scenario.two_semesters
           = (Returned (), st')
    ∧ semesterData st' "Semester 1" !! "Math"
        = Some (mkSubject (Some [Scenario.hw1; Scenario.hw2; Scenario.hw3])
                          (Some "#222222"))
    ∧ (∀ n', n' ≠ "Math" →
         semesterData st' "Semester 1" !! n'
           = semesterData Scenario.two_semesters "Semester 1" !! n')
    ∧ (∀ semester', semester' ≠ "Semester 1" →
         document st' !! semester' = document Scenario.two_semesters !! semester')
    ∧ semesterNames st' = semesterNames Scenario.two_semesters.
Proof.
  apply (updateSubject_self_sets_colorTag "Semester 1" "Math" "#222222"
           Scenario.two_semesters
           (mkSubject (Some [Scenario.hw1; Scenario.hw2; Scenario.hw3])
                      (Some "#111111"))).
  vm_compute. reflexivity.
Defined.

Lemma addSubject_inserts_iff_absent_witness :
  (∃ st', addSubject "Semester 1" "Chemistry" None Scenario.two_semesters
            = (Returned (), st')
     ∧ semesterData st' "Semester 1" !! "Chemistry"
         = Some (mkSubject (Some []) (Some "#6C63FF")))
  ∧ addSubject "Semester 1" "Math" (Some "#222222") Scenario.two_semesters
      = (Returned (), Scenario.two_semesters)
  ∧ addSubject "Semester 1" "valueOf" None Scenario.two_semesters
      = (Returned (), Scenario.two_semesters).
Proof.
  destruct (addSubject_inserts_iff_absent "Semester 1" "Chemistry" None
              Scenario.two_semesters two_semesters_ordinary) as (Hnew & _).
  destruct (addSubject_inserts_iff_absent "Semester 1" "Math" (Some "#222222")
              Scenario.two_semesters two_semesters_ordinary) as (_ & Hold & _).
  destruct (addSubject_inserts_iff_absent "Semester 1" "valueOf" None
              Scenario.two_semesters two_semesters_ordinary) as (_ & _ & Hinh).
  split; [|split].
  - destruct Hnew as (st' & Hrun & Hrec & _);
      [vm_compute; reflexivity|vm_compute; reflexivity|].
    exists st'. split; [exact Hrun|exact Hrec].
  - apply (Hold (mkSubject (Some [Scenario.hw1; Scenario.hw2; Scenario.hw3])
                           (Some "#111111"))).
    vm_compute. reflexivity.
  - apply Hinh; vm_compute; reflexivity.
Defined.

Lemma updateSubject_absent_source_witness :
  ∃ st', updateSubject "Semester 1" "Ghost" "Math" "#222222" Scenario.fresh_install
           = (Returned (), st')
    ∧ st' ≠ Scenario.fresh_install
    ∧ semester_task_manager st' = Some (document st')
    ∧ semesterData st' "Semester 1" !! "Math" = Some (mkSubject None (Some "#222222"))
    ∧ (∀ n', n' ≠ "Math" →
         semesterData st' "Semester 1" !! n'
           = semesterData Scenario.fresh_install "Semester 1" !! n')
    ∧ (∀ semester', semester' ≠ "Semester 1" →
         document st' !! semester' = document Scenario.fresh_install !! semester')
    ∧ semesterNames st' = semesterNames Scenario.fresh_install.
Proof.
  apply updateSubject_absent_source;
    [right; vm_compute; reflexivity|vm_compute; reflexivity|by_evaluation
    |vm_compute; reflexivity|vm_compute; reflexivity].
Defined.

Lemma updateTask_replaces_or_skips_witness :
  (∃ st' ts', updateTask "Semester 1" "Math" 1 Scenario.hw3 Scenario.two_semesters
                = (Returned (), st')
     ∧ semesterData st' "Semester 1" !! "Math"
         = Some (mkSubject (Some ts') (Some "#111111"))
     ∧ length ts' = 3%nat
     ∧ Array.get ts' 1 = Some Scenario.hw3)
  ∧ updateTask "Semester 1" "History" 0 Scenario.hw3 Scenario.two_semesters
      = (Returned (), Scenario.two_semesters)
  ∧ updateTask "Semester 1" "Math" 3 Scenario.hw3 Scenario.two_semesters
      = (Returned (), Scenario.two_semesters)
  ∧ updateTask "Semester 1" "Math" (-1) Scenario.hw3 Scenario.two_semesters
      = (Returned (), Scenario.two_semesters).
Proof.
  pose (math := mkSubject (Some [Scenario.hw1; Scenario.hw2; Scenario.hw3])
                          (Some "#111111")).
  pose (ts := [Scenario.hw1; Scenario.hw2; Scenario.hw3]).
  split; [|split; [|split]].
  - destruct (updateTask_replaces_or_skips "Semester 1" "Math" 1 Scenario.hw3
                Scenario.two_semesters) as (Hin & _).
    destruct (Hin math ts) as (st' & ts' & Hrun & Hrec & Hlen & Hget & _);
      [vm_compute; reflexivity|reflexivity|simpl; lia|].
    exists st', ts'. split; [exact Hrun|]. split; [exact Hrec|].
    split; [exact Hlen|]. exact (Hget 1).
  - destruct (updateTask_replaces_or_skips "Semester 1" "History" 0 Scenario.hw3
                Scenario.two_semesters) as (_ & Habsent & _).
    apply Habsent;
      [exact two_semesters_ordinary|vm_compute; reflexivity|vm_compute; reflexivity].
  - destruct (updateTask_replaces_or_skips "Semester 1" "Math" 3 Scenario.hw3
                Scenario.two_semesters) as (_ & _ & Hout).
    apply (Hout math ts); [vm_compute; reflexivity|reflexivity|simpl; lia].
  - destruct (updateTask_replaces_or_skips "Semester 1" "Math" (-1) Scenario.hw3
                Scenario.two_semesters) as (_ & _ & Hout).
    apply (Hout math ts); [vm_compute; reflexivity|reflexivity|simpl; lia].
Defined.

Lemma deleteTask_splice_index_witness :
  ∃ st' ts', deleteTask "Semester 1" "Math" (-1) Scenario.two_semesters
               = (Returned (), st')
    ∧ semesterData st' "Semester 1" !! "Math"
        = Some (mkSubject (Some ts') (Some "#111111"))
    ∧ ts' = [Scenario.hw1; Scenario.hw2].
Proof.
  destruct (deleteTask_splice_index "Semester 1" "Math" (-1) Scenario.two_semesters
              (mkSubject (Some [Scenario.hw1; Scenario.hw2; Scenario.hw3])
                         (Some "#111111"))
              [Scenario.hw1; Scenario.hw2; Scenario.hw3])
    as (st' & ts' & Hrun & Hrec & Hneg & _);
    [vm_compute; reflexivity|reflexivity|simpl; lia|].
  exists st', ts'. split; [exact Hrun|]. split; [exact Hrec|].
  destruct Hneg as [Hts' _]; [simpl; lia|]. exact Hts'.
Defined.

(** * Further properties of the module *)

(** ** Renaming and deleting semesters *)

Lemma document_index_saved st l :
  document (mkStorage (semester_task_manager st) (Some l)) = document st.
Proof. reflexivity. Qed.

Lemma semesterNames_mk d l : semesterNames (mkStorage d (Some l)) = l.
Proof. reflexivity. Qed.

Lemma document_mk data o : document (mkStorage (Some data) o) = data.
Proof. reflexivity. Qed.

Lemma updateSemester_run a b st :
  a ≠ b →
  b ∉ semesterNames st →
  updateSemester a b st =
    (Returned (),
     mkStorage
       (match JSObject.get (document st) a with
        | JSObject.Own subtree =>
            Some (delete a (JSObject.assign (document st) b subtree))
        | JSObject.Builtin k => Some (delete a (assign_builtin (document st) b k))
        | JSObject.Undefined => semester_task_manager st
        end)
       (Some ((λ s, if bool_decide (s = a) then b else s) <$> semesterNames st))).
Proof.
  intros Hne Hb. unfold updateSemester.
  rewrite bool_decide_eq_false_2 by done.
  rewrite bind_run, loadSemesters_run, includes_false by done.
  rewrite bind_run. unfold saveSemesters at 1.
  rewrite bind_run, loadData_run, document_index_saved.
  destruct (JSObject.get (document st) a); reflexivity.
Qed.

Lemma deleteSemester_run x st :
  deleteSemester x st =
    (Returned (),
     mkStorage (Some (delete x (document st)))
               (Some (filter (λ s, s ≠ x) (semesterNames st)))).
Proof.
  unfold deleteSemester.
  rewrite bind_run, loadSemesters_run, bind_run. unfold saveSemesters at 1.
  rewrite bind_run, loadData_run. reflexivity.
Qed.

Lemma assign_builtin_other data key k j :
  j ≠ key → assign_builtin data key k !! j = data !! j.
Proof.
  intros Hj. unfold assign_builtin.
  destruct (data !! key); repeat case_bool_decide;
    by rewrite ?lookup_insert_ne, ?lookup_delete_ne.
Qed.

Lemma assign_other {A} (obj : gmap string A) k v j :
  j ≠ k → JSObject.assign obj k v !! j = obj !! j.
Proof.
  intros Hj. unfold JSObject.assign.
  destruct (obj !! k); repeat case_bool_decide; by rewrite ?lookup_insert_ne.
Qed.

(** Renaming a semester to a name that is not in the index returns and
    puts the new name at every position of the old one, all other entries
    staying in place.  Data stored under the old name is moved under the
    new one, replacing whatever the document held there, and the old key is
    gone; but under the new name ["__proto__"], unless the document has
    such a key, the data is lost.  When the old name is plain and has no
    data the document is not written.  Other semesters are untouched. *)
Theorem updateSemester_renames (a b : string) (st : AsyncStorage) :
  a ≠ b →
  b ∉ semesterNames st →
  ∃ st', updateSemester a b st = (Returned (), st')
    ∧ length (semesterNames st') = length (semesterNames st)
    ∧ (∀ i s, semesterNames st !! i = Some s →
         semesterNames st' !! i = Some (if bool_decide (s = a) then b else s))
    ∧ (a ∉ semesterNames st')
    ∧ (∀ subtree, document st !! a = Some subtree →
         b ≠ "__proto__" ∨ is_Some (document st !! b) →
         document st' !! b = Some subtree ∧ document st' !! a = None)
    ∧ (∀ subtree, document st !! a = Some subtree →
         b = "__proto__" → document st !! b = None →
         document st' = delete a (document st))
    ∧ (document st !! a = None → plain a →
         semester_task_manager st' = semester_task_manager st)
    ∧ (∀ k, k ≠ a → k ≠ b → document st' !! k = document st !! k).
Proof.
  intros Hne Hb. eexists. split; [by apply updateSemester_run|].
  rewrite !semesterNames_mk.
  split; [apply length_fmap|].
  split; [intros i s Hi; by rewrite list_lookup_fmap, Hi|].
  split.
  { intros Hin. apply list_elem_of_fmap in Hin as (s & Hs & _).
    case_bool_decide; congruence. }
  destruct (document st !! a) as [sub|] eqn:Ha.
  - rewrite (get_own _ _ _ Ha), !document_mk.
    split.
    { intros subtree [= <-] Hb'.
      rewrite lookup_delete_eq, lookup_delete_ne by done. split; [|done].
      destruct Hb' as [Hb'|Hb'].
      - by rewrite assign_not_proto, lookup_insert_eq.
      - by rewrite assign_own, lookup_insert_eq. }
    split.
    { intros subtree _ -> Hnone. by rewrite assign_proto. }
    split; [done|].
    intros k Hka Hkb. by rewrite lookup_delete_ne, assign_other.
  - split; [done|]. split; [done|].
    unfold JSObject.get. rewrite Ha.
    destruct (JSObject.inherited a) eqn:Hinh.
    + rewrite document_mk. split; [intros _ Hplain; congruence|].
      intros k Hka Hkb. by rewrite lookup_delete_ne, assign_builtin_other.
    + rewrite document_index_saved. done.
Qed.

(** [deleteSemester] always returns.  Afterwards the name is neither in
    the index nor a key of the document; the other names keep their order
    and the other semesters their data. *)
Theorem deleteSemester_removes (x : string) (st : AsyncStorage) :
  ∃ st', deleteSemester x st = (Returned (), st')
    ∧ (x ∉ semesterNames st')
    ∧ semesterNames st' `sublist_of` semesterNames st
    ∧ (∀ s, s ≠ x → s ∈ semesterNames st' ↔ s ∈ semesterNames st)
    ∧ document st' !! x = None
    ∧ (∀ k, k ≠ x → document st' !! k = document st !! k).
Proof.
  eexists. split; [apply deleteSemester_run|].
  rewrite semesterNames_mk, document_mk.
  split; [intros Hin; apply list_elem_of_filter in Hin as [Hne _]; by apply Hne|].
  split; [apply sublist_filter|].
  split; [intros s Hs; rewrite list_elem_of_filter; tauto|].
  split; [apply lookup_delete_eq|].
  intros k Hk. by rewrite lookup_delete_ne.
Qed.

Lemma filter_out_absent (x : string) (l : list string) :
  x ∉ l → filter (λ s, s ≠ x) l = l.
Proof.
  induction l as [|y l IH]; intros Hx; [done|].
  apply not_elem_of_cons in Hx as [Hne Hl].
  rewrite filter_cons_True by congruence. f_equal. auto.
Qed.

(** Adding a semester that is not in the index and deleting it again
    restores the index; the document ends without a key of that name. *)
Theorem addSemester_deleteSemester (x : string) (st : AsyncStorage) :
  x ∉ semesterNames st →
  ∃ st', (addSemester x ;; deleteSemester x) st = (Returned (), st')
    ∧ semesterNames st' = semesterNames st
    ∧ document st' = delete x (document st).
Proof.
  intros Hx. eexists. split.
  - rewrite bind_run, addSemester_fresh by done. apply deleteSemester_run.
  - rewrite !semesterNames_mk, document_mk, document_index_saved.
    split; [|done].
    rewrite filter_app, filter_out_absent by done.
    rewrite filter_cons_False by (intros H; by apply H). apply app_nil_r.
Qed.

Lemma rename_back (a b : string) (l : list string) :
  b ∉ l →
  (λ s, if bool_decide (s = b) then a else s)
    <$> ((λ s, if bool_decide (s = a) then b else s) <$> l) = l.
Proof.
  intros Hb. rewrite <- list_fmap_compose.
  rewrite <- (list_fmap_id l) at 2. apply list_fmap_ext.
  intros i s Hs. simpl.
  assert (s ≠ b) by (intros ->; apply Hb; by eapply list_elem_of_lookup_2).
  repeat case_bool_decide; congruence.
Qed.

(** Renaming a stored semester to a name used neither in the index nor in
    the document, and then back, restores the index and the document,
    provided neither name is ["__proto__"]. *)
Theorem updateSemester_there_and_back (a b : string) (st : AsyncStorage)
  (subtree : SemesterRecord) :
  a ≠ b →
  b ∉ semesterNames st →
  document st !! a = Some subtree →
  document st !! b = None →
  a ≠ "__proto__" →
  b ≠ "__proto__" →
  ∃ st', (updateSemester a b ;; updateSemester b a) st = (Returned (), st')
    ∧ semesterNames st' = semesterNames st
    ∧ document st' = document st.
Proof.
  intros Hne Hb Ha Hdb Hap Hbp.
  assert (Ha' : a ∉ (λ s, if bool_decide (s = a) then b else s) <$> semesterNames st).
  { intros Hin. apply list_elem_of_fmap in Hin as (s & Hs & _).
    case_bool_decide; congruence. }
  eexists. split.
  - rewrite bind_run, updateSemester_run by done.
    apply updateSemester_run; [done|by rewrite semesterNames_mk].
  - rewrite !semesterNames_mk. split; [by apply rename_back|].
    rewrite (get_own _ _ _ Ha), !document_mk, !assign_not_proto by done.
    rewrite (get_own _ b subtree)
      by (by rewrite lookup_delete_ne, lookup_insert_eq).
    rewrite document_mk, assign_not_proto by done.
    apply map_eq. intros k.
    destruct (decide (k = b)) as [->|Hkb]; [by rewrite lookup_delete_eq|].
    rewrite lookup_delete_ne by done.
    destruct (decide (k = a)) as [->|Hka]; [by rewrite lookup_insert_eq|].
    by rewrite lookup_insert_ne, lookup_delete_ne, lookup_insert_ne.
Qed.

(** ** Deleting and renaming subjects *)

Lemma deleteSubject_run semester n st :
  ordinary_semester st semester →
  deleteSubject semester n st =
    (Returned (),
     saved (<[semester := delete n (semesterData st semester)]> (document st)) st).
Proof.
  intros Hord. unfold deleteSubject. rewrite bind_run, getSemesterData_run by done.
  by apply saveSemesterData_run.
Qed.

Lemma updateSubject_move_run semester a b c st :
  ordinary_semester st semester →
  a ≠ b →
  semesterData st semester !! b = None →
  plain b →
  updateSubject semester a b c st =
    (Returned (),
     saved (<[semester :=
               delete a
                 (<[b := spread_with_colorTag
                           (JSObject.get (semesterData st semester) a) c]>
                    (semesterData st semester))]> (document st)) st).
Proof.
  intros Hord Hne Hb Hplain. unfold updateSubject.
  rewrite bind_run, getSemesterData_run by done.
  rewrite bool_decide_eq_true_2 by done.
  rewrite (get_undefined _ b), assign_plain by done.
  by apply saveSemesterData_run.
Qed.

(** On a semester that is stored or plainly named, [deleteSubject] returns.
    Afterwards the subject is not in the semester, whose record is stored
    even if the document had none; the other subjects, the other semesters
    and the index are as before. *)
Theorem deleteSubject_removes (semester n : string) (st : AsyncStorage) :
  ordinary_semester st semester →
  ∃ st', deleteSubject semester n st = (Returned (), st')
    ∧ semesterData st' semester !! n = None
    ∧ (∀ n', n' ≠ n → semesterData st' semester !! n' = semesterData st semester !! n')
    ∧ is_Some (document st' !! semester)
    ∧ (∀ semester', semester' ≠ semester →
         document st' !! semester' = document st !! semester')
    ∧ semesterNames st' = semesterNames st.
Proof.
  intros Hord. eexists. split; [by apply deleteSubject_run|].
  rewrite semesterData_saved_eq.
  split; [apply lookup_delete_eq|].
  split; [intros n' Hn'; by rewrite lookup_delete_ne|].
  split; [rewrite document_saved, lookup_insert_eq; by eexists|].
  split; [intros semester' Hne; by apply document_saved_ne|done].
Qed.

(** Renaming a stored subject to a plain name the semester does not have
    returns; the new name then holds the subject's task field with the
    given [colorTag], the old name is gone, and the other subjects, the
    other semesters and the index are as before. *)
Theorem updateSubject_moves (semester a b c : string) (st : AsyncStorage)
  (s : SubjectRecord) :
  semesterData st semester !! a = Some s →
  a ≠ b →
  semesterData st semester !! b = None →
  plain b →
  ∃ st', updateSubject semester a b c st = (Returned (), st')
    ∧ semesterData st' semester !! b = Some (mkSubject (tasks s) (Some c))
    ∧ semesterData st' semester !! a = None
    ∧ (∀ n, n ≠ a → n ≠ b →
         semesterData st' semester !! n = semesterData st semester !! n)
    ∧ (∀ semester', semester' ≠ semester →
         document st' !! semester' = document st !! semester')
    ∧ semesterNames st' = semesterNames st.
Proof.
  intros Ha Hne Hb Hplain. eexists.
  split; [apply updateSubject_move_run; [ord|done..]|].
  rewrite semesterData_saved_eq, (get_own _ _ _ Ha). simpl.
  split; [by rewrite lookup_delete_ne, lookup_insert_eq|].
  split; [apply lookup_delete_eq|].
  split; [intros n Hna Hnb; by rewrite lookup_delete_ne, lookup_insert_ne|].
  split; [intros semester' Hs'; by apply document_saved_ne|done].
Qed.

(** On a semester that is stored or plainly named, [updateSubject] throws
    in exactly two situations: the duplicate-name error when the names
    differ and the new one is a subject of the semester or an inherited
    name, and a [TypeError] when the names are equal and the name is plain
    and not a subject. *)
Theorem updateSubject_throws_iff (semester a b c : string) (st : AsyncStorage)
  (e : exn) :
  ordinary_semester st semester →
  fst (updateSubject semester a b c st) = Threw e ↔
    (e = duplicate_subject ∧ a ≠ b
       ∧ (is_Some (semesterData st semester !! b) ∨ JSObject.inherited b = true))
    ∨ (e = TypeError ∧ a = b
         ∧ semesterData st semester !! a = None ∧ plain a).
Proof.
  intros Hord. unfold updateSubject. rewrite bind_run, getSemesterData_run by done.
  unfold plain, JSObject.get.
  destruct (decide (a = b)) as [->|Hne].
  - rewrite bool_decide_eq_false_2 by (intros H; by apply H).
    destruct (semesterData st semester !! b) as [o|] eqn:Hb;
      [|destruct (JSObject.inherited b) eqn:Hinh]; simpl.
    + split; [discriminate|].
      intros [(_ & Hbb & _)|(_ & _ & [=] & _)]. by destruct Hbb.
    + split; [discriminate|].
      intros [(_ & Hbb & _)|(_ & _ & _ & [=])]. by destruct Hbb.
    + split.
      * intros [= <-]. by right.
      * intros [(_ & Hbb & _)|(-> & _)]; [by destruct Hbb|done].
  - rewrite bool_decide_eq_true_2 by done.
    destruct (semesterData st semester !! b) as [o|] eqn:Hb;
      [|destruct (JSObject.inherited b) eqn:Hinh]; simpl.
    + split.
      * intros [= <-]. left. split; [done|]. split; [done|]. left. by eexists.
      * intros [(-> & _)|(_ & Hab & _)]; [done|by destruct Hne].
    + split.
      * intros [= <-]. left. split; [done|]. split; [done|]. by right.
      * intros [(-> & _)|(_ & Hab & _)]; [done|by destruct Hne].
    + split; [discriminate|].
      intros [(_ & _ & [[o [=]]|[=]])|(_ & Hab & _)]. by destruct Hne.
Qed.

(** On a semester that is stored or plainly named, adding a subject under
    a plain name the semester does not have and deleting it again leaves
    the semester's subjects, the other semesters and the index as they
    were. *)
Theorem addSubject_deleteSubject (semester n : string) (c : option string)
  (st : AsyncStorage) :
  ordinary_semester st semester →
  semesterData st semester !! n = None →
  plain n →
  ∃ st', (addSubject semester n c ;; deleteSubject semester n) st = (Returned (), st')
    ∧ semesterData st' semester = semesterData st semester
    ∧ (∀ semester', semester' ≠ semester →
         document st' !! semester' = document st !! semester')
    ∧ semesterNames st' = semesterNames st.
Proof.
  intros Hord Hn Hplain. eexists. split.
  - rewrite bind_run, addSubject_plain_run by done.
    apply deleteSubject_run, ordinary_saved.
  - rewrite !semesterData_saved_eq. split; [by apply delete_insert_id|].
    split; [|done].
    intros semester' Hs'. by rewrite !document_saved_ne.
Qed.

(** Renaming a stored subject with a plain name to a free plain name and
    back, giving its old [colorTag] on the way back, leaves the semester's
    subjects as they were. *)
Theorem updateSubject_there_and_back (semester a b c c0 : string)
  (st : AsyncStorage) (s : SubjectRecord) :
  semesterData st semester !! a = Some s →
  colorTag s = Some c0 →
  a ≠ b →
  semesterData st semester !! b = None →
  plain a →
  plain b →
  ∃ st', (updateSubject semester a b c ;; updateSubject semester b a c0) st
           = (Returned (), st')
    ∧ semesterData st' semester = semesterData st semester
    ∧ (∀ semester', semester' ≠ semester →
         document st' !! semester' = document st !! semester')
    ∧ semesterNames st' = semesterNames st.
Proof.
  intros Ha Hc0 Hne Hb Hpa Hpb. eexists. split.
  - rewrite bind_run, updateSubject_move_run by (done || ord).
    apply updateSubject_move_run; [apply ordinary_saved|done| |done].
    rewrite semesterData_saved_eq. apply lookup_delete_eq.
  - rewrite !semesterData_saved_eq. split; [|split; [|done]].
    + rewrite (get_own _ _ _ Ha). simpl.
      rewrite (get_own _ b (mkSubject (tasks s) (Some c)))
        by (by rewrite lookup_delete_ne, lookup_insert_eq).
      simpl.
      replace (mkSubject (tasks s) (Some c0)) with s by (destruct s; simpl in *; by subst).
      apply map_eq. intros k.
      destruct (decide (k = b)) as [->|Hkb]; [by rewrite lookup_delete_eq|].
      rewrite lookup_delete_ne by done.
      destruct (decide (k = a)) as [->|Hka]; [by rewrite lookup_insert_eq|].
      by rewrite lookup_insert_ne, lookup_delete_ne, lookup_insert_ne.
    + intros semester' Hs'. by rewrite !document_saved_ne.
Qed.

(** The earlier revision's [updateSubject] has no guard: renaming a stored
    subject onto another stored subject returns normally, and the target
    then holds the source's tasks, its own being lost, while the source
    name is gone. *)
Theorem legacy_updateSubject_overwrites (semester a b c : string)
  (st : AsyncStorage) (s s' : SubjectRecord) :
  semesterData st semester !! a = Some s →
  semesterData st semester !! b = Some s' →
  a ≠ b →
  ∃ st', Legacy.updateSubject semester a b c st = (Returned (), st')
    ∧ semesterData st' semester !! b = Some (mkSubject (tasks s) (Some c))
    ∧ semesterData st' semester !! a = None
    ∧ (∀ n, n ≠ a → n ≠ b →
         semesterData st' semester !! n = semesterData st semester !! n).
Proof.
  intros Ha Hb Hne. eexists. split.
  - unfold Legacy.updateSubject. rewrite bind_run, getSemesterData_run by ord.
    rewrite bool_decide_eq_true_2 by done.
    rewrite assign_own by (by eexists).
    apply saveSemesterData_run. ord.
  - rewrite semesterData_saved_eq, (get_own _ _ _ Ha). simpl.
    split; [by rewrite lookup_delete_ne, lookup_insert_eq|].
    split; [apply lookup_delete_eq|].
    intros n Hna Hnb. by rewrite lookup_delete_ne, lookup_insert_ne.
Qed.

(** ** Toggling and deleting tasks *)

Lemma get_Some_range {A} (arr : list A) (i : Z) (x : A) :
  Array.get arr i = Some x →
  0 ≤ i < Z.of_nat (length arr) ∧ arr !! Z.to_nat i = Some x.
Proof.
  unfold Array.get. case_bool_decide; [|done].
  intros Hx. pose proof (lookup_lt_Some _ _ _ Hx). split; [lia|done].
Qed.

Lemma toggleTaskCompletion_run semester subject i st s ts t :
  semesterData st semester !! subject = Some s →
  tasks s = Some ts →
  Array.get ts i = Some t →
  toggleTaskCompletion semester subject i st =
    (Returned (),
     saved (<[semester :=
               <[subject := mkSubject (Some (<[Z.to_nat i := toggle t]> ts)) (colorTag s)]>
                 (semesterData st semester)]> (document st)) st).
Proof.
  intros Hs Hts Ht. unfold toggleTaskCompletion.
  rewrite bind_run, getSemesterData_run, (get_own _ _ _ Hs), Hts, Ht by ord.
  apply saveSemesterData_run. ord.
Qed.

Lemma saved_saved d d' st : saved d (saved d' st) = saved d st.
Proof. reflexivity. Qed.

(** Saving a semester record over a save of the same semester, when the
    record is the one stored at first, gives back the first storage. *)
Lemma saved_over_saved st semester subject s sd1 :
  semesterData st semester !! subject = Some s →
  saved (<[semester := semesterData st semester]>
           (document (saved (<[semester := sd1]> (document st)) st)))
        (saved (<[semester := sd1]> (document st)) st) = st.
Proof.
  intros Hs. rewrite document_saved, insert_insert_eq, saved_saved.
  by eapply saved_id.
Qed.

(** With the subject stored and a task at the index, [toggleTaskCompletion]
    negates that task's [completed] flag and keeps its title and due date;
    the other tasks, the other subjects, the other semesters and the index
    are as before.  With no task at the index, or with a subject that is
    absent under a plain name (in a semester that is stored or plainly
    named), it returns and the storage is unchanged. *)
Theorem toggleTaskCompletion_flips (semester subject : string) (i : Z)
  (st : AsyncStorage) :
  (∀ s ts t,
     semesterData st semester !! subject = Some s →
     tasks s = Some ts →
     Array.get ts i = Some t →
     ∃ st' ts', toggleTaskCompletion semester subject i st = (Returned (), st')
       ∧ semesterData st' semester !! subject = Some (mkSubject (Some ts') (colorTag s))
       ∧ length ts' = length ts
       ∧ (∀ j, Array.get ts' j =
            if bool_decide (j = i)
            then Some (mkTask (title t) (dueDate t) (negb (completed t)))
            else Array.get ts j)
       ∧ (∀ n', n' ≠ subject →
            semesterData st' semester !! n' = semesterData st semester !! n')
       ∧ (∀ semester', semester' ≠ semester →
            document st' !! semester' = document st !! semester')
       ∧ semesterNames st' = semesterNames st)
  ∧ (ordinary_semester st semester →
     plain subject →
     semesterData st semester !! subject = None →
       toggleTaskCompletion semester subject i st = (Returned (), st))
  ∧ (∀ s ts,
       semesterData st semester !! subject = Some s →
       tasks s = Some ts →
       i < 0 ∨ Z.of_nat (length ts) ≤ i →
       toggleTaskCompletion semester subject i st = (Returned (), st)).
Proof.
  split; [|split].
  - intros s ts t Hs Hts Ht. eexists _, _.
    split; [by eapply toggleTaskCompletion_run|].
    destruct (get_Some_range _ _ _ Ht) as [Hi _].
    rewrite semesterData_saved_eq, lookup_insert_eq. split; [reflexivity|].
    split; [apply length_insert|].
    split; [intros j; by apply get_insert|].
    split; [intros n' Hn'; by rewrite lookup_insert_ne|].
    split; [intros semester' Hne; by apply document_saved_ne|done].
  - intros Hord Hplain Hs. unfold toggleTaskCompletion.
    rewrite bind_run, getSemesterData_run by done. by rewrite get_undefined.
  - intros s ts Hs Hts Hi. unfold toggleTaskCompletion.
    rewrite bind_run, getSemesterData_run, (get_own _ _ _ Hs), Hts by ord.
    rewrite get_out_of_range by done. reflexivity.
Qed.

(** Toggling the same existing task twice gives back the storage. *)
Theorem toggleTaskCompletion_twice (semester subject : string) (i : Z)
  (st : AsyncStorage) (s : SubjectRecord) (ts : list Task) (t : Task) :
  semesterData st semester !! subject = Some s →
  tasks s = Some ts →
  Array.get ts i = Some t →
  (toggleTaskCompletion semester subject i ;;
   toggleTaskCompletion semester subject i) st = (Returned (), st).
Proof.
  intros Hs Hts Ht. destruct (get_Some_range _ _ _ Ht) as [Hi Hlook].
  rewrite bind_run, (toggleTaskCompletion_run _ _ _ _ _ _ _ Hs Hts Ht).
  erewrite toggleTaskCompletion_run; cycle 1.
  - rewrite semesterData_saved_eq. apply lookup_insert_eq.
  - reflexivity.
  - unfold Array.get. rewrite bool_decide_eq_true_2 by lia.
    apply list_lookup_insert_eq. lia.
  - f_equal. rewrite semesterData_saved_eq. simpl.
    rewrite insert_insert_eq, list_insert_insert_eq.
    replace (toggle (toggle t)) with t
      by (destruct t as [? ? []]; reflexivity).
    rewrite (list_insert_id _ _ _ Hlook).
    replace (mkSubject (Some ts) (colorTag s)) with s
      by (destruct s; simpl in *; by subst).
    rewrite (insert_id _ _ _ Hs). by eapply saved_over_saved.
Qed.

(** With the subject stored and [0 <= index < length] of its task array,
    [deleteTask] removes the task at the index: the tasks before it stay
    in place, the ones after it move down by one and the array is one
    shorter.  The subject stays in the semester, also when its last task
    goes; the other subjects, the other semesters and the index are as
    before. *)
Theorem deleteTask_in_range (semester subject : string) (i : Z)
  (st : AsyncStorage) (s : SubjectRecord) (ts : list Task) :
  semesterData st semester !! subject = Some s →
  tasks s = Some ts →
  0 ≤ i < Z.of_nat (length ts) →
  ∃ st' ts', deleteTask semester subject i st = (Returned (), st')
    ∧ semesterData st' semester !! subject = Some (mkSubject (Some ts') (colorTag s))
    ∧ S (length ts') = length ts
    ∧ (∀ j, j < i → Array.get ts' j = Array.get ts j)
    ∧ (∀ j, i ≤ j → Array.get ts' j = Array.get ts (j + 1))
    ∧ (∀ n', n' ≠ subject →
         semesterData st' semester !! n' = semesterData st semester !! n')
    ∧ (∀ semester', semester' ≠ semester →
         document st' !! semester' = document st !! semester')
    ∧ semesterNames st' = semesterNames st.
Proof.
  intros Hs Hts Hi. eexists _, _.
  split; [rewrite (deleteTask_run _ _ _ _ _ _ Hs Hts); apply saveSemesterData_run; ord|].
  rewrite semesterData_saved_eq, lookup_insert_eq. split; [reflexivity|].
  rewrite splice_in_range by done.
  split.
  { rewrite length_delete by (apply lookup_lt_is_Some; lia).
    destruct ts; simpl in *; lia. }
  split.
  { intros j Hj. unfold Array.get. case_bool_decide; [|done].
    apply list_lookup_delete_lt. lia. }
  split.
  { intros j Hj. unfold Array.get. rewrite !bool_decide_eq_true_2 by lia.
    rewrite list_lookup_delete_ge by lia. f_equal. lia. }
  split; [intros n' Hn'; by rewrite lookup_insert_ne|].
  split; [intros semester' Hne; by apply document_saved_ne|done].
Qed.

(** On a subject stored with a task array, adding a task and then deleting
    at the position it went to (the old length, or [-1]) gives back the
    storage. *)
Theorem addTask_deleteTask (semester subject : string) (task : Task)
  (st : AsyncStorage) (s : SubjectRecord) (ts : list Task) :
  semesterData st semester !! subject = Some s →
  tasks s = Some ts →
  (addTask semester subject task ;;
   deleteTask semester subject (Z.of_nat (length ts))) st = (Returned (), st)
  ∧ (addTask semester subject task ;;
     deleteTask semester subject (-1)) st = (Returned (), st).
Proof.
  intros Hs Hts.
  assert (Hback : ∀ i,
    Array.splice (ts ++ [task]) i 1 = ts →
    (addTask semester subject task ;; deleteTask semester subject i) st
      = (Returned (), st)).
  { intros i Hsplice.
    rewrite bind_run, (addTask_present_run _ _ _ _ _ _ Hs Hts).
    erewrite deleteTask_run; cycle 1.
    - rewrite semesterData_saved_eq. apply lookup_insert_eq.
    - reflexivity.
    - rewrite saveSemesterData_run by apply ordinary_saved. f_equal.
      rewrite semesterData_saved_eq. simpl. rewrite Hsplice, insert_insert_eq.
      replace (mkSubject (Some ts) (colorTag s)) with s
        by (destruct s; simpl in *; by subst).
      rewrite (insert_id _ _ _ Hs). by eapply saved_over_saved. }
  assert (Hlast : delete (length ts) (ts ++ [task])%list = ts).
  { rewrite delete_take_drop, take_app_length.
    rewrite drop_ge by (rewrite length_app; simpl; lia). apply app_nil_r. }
  split; apply Hback.
  - rewrite splice_in_range by (rewrite length_app; simpl; lia).
    by rewrite Nat2Z.id.
  - rewrite splice_from_end by (rewrite length_app; simpl; lia).
    rewrite length_app. simpl.
    replace (Z.to_nat (Z.of_nat (length ts + 1) + -1)) with (length ts) by lia.
    done.
Qed.

(** After an [addTask] on a subject that is stored with a task array, or
    absent under a plain name in a semester that is stored or plainly
    named, the task screen's reload shows the tasks stored before followed
    by the new one, whatever it showed. *)
Theorem loadTasks_after_addTask (semester subject : string) (task : Task)
  (shown : list Task) (st : AsyncStorage) :
  (ordinary_semester st semester ∧ plain subject
     ∧ semesterData st semester !! subject = None)
  ∨ (∃ s ts, semesterData st semester !! subject = Some s ∧ tasks s = Some ts) →
  ∃ st', (addTask semester subject task ;; loadTasks semester subject shown) st
    = (Returned
         (default [] (semesterData st semester !! subject ≫= tasks) ++ [task])%list,
       st').
Proof.
  intros [(Hord & Hplain & Hs)|(s & ts & Hs & Hts)]; eexists.
  - rewrite bind_run, addTask_absent_run by done.
    unfold loadTasks. rewrite bind_run, getSemesterData_run by apply ordinary_saved.
    rewrite semesterData_saved_eq.
    rewrite (get_own _ subject (mkSubject (Some [task]) (Some "#6C63FF")))
      by apply lookup_insert_eq.
    rewrite Hs. reflexivity.
  - rewrite bind_run, (addTask_present_run _ _ _ _ _ _ Hs Hts).
    unfold loadTasks. rewrite bind_run, getSemesterData_run by apply ordinary_saved.
    rewrite semesterData_saved_eq.
    rewrite (get_own _ subject (mkSubject (Some (ts ++ [task])%list) (colorTag s)))
      by apply lookup_insert_eq.
    rewrite Hs. simpl. rewrite Hts. reflexivity.
Qed.

(** ** What no call does *)

Lemma semesters_list_saved data st : semesters_list (saved data st) = semesters_list st.
Proof. reflexivity. Qed.

Lemma saveSemesterData_raw semester sd st :
  saveSemesterData semester sd st =
    (Returned (), saved (JSObject.assign (document st) semester sd) st).
Proof. reflexivity. Qed.

(** [getSemesterData] hands out the stored (or an empty) record, or a
    built-in. *)
Lemma getSemesterData_cases semester st :
  (ordinary_semester st semester
     ∧ getSemesterData semester st = (Returned (semesterData st semester), st))
  ∨ (¬ ordinary_semester st semester
       ∧ getSemesterData semester st = (Escapes, st)).
Proof.
  destruct (document st !! semester) as [sd|] eqn:Hsd.
  - left. assert (ordinary_semester st semester) by (left; by eexists).
    split; [done|]. by apply getSemesterData_run.
  - destruct (JSObject.inherited semester) eqn:Hinh.
    + right. split; [|by apply getSemesterData_builtin].
      intros [[sd Hsd']|Hplain]; [congruence|]. unfold plain in Hplain. congruence.
    + left. assert (ordinary_semester st semester) by (by right).
      split; [done|]. by apply getSemesterData_run.
Qed.

(** Unfolds a subject or task call up to its reads of the semester and of
    the subject. *)
Ltac open_call sem st :=
  unfold addSubject, deleteSubject, updateSubject, addTask, updateTask,
    deleteTask, toggleTaskCompletion;
  rewrite bind_run;
  let Hord := fresh "Hord" in
  destruct (getSemesterData_cases sem st) as [[Hord ->]|[Hord ->]];
  cbv zeta.

(** Every call either returns, or throws or escapes with the storage it
    was given. *)
Lemma call_outcomes (c : Call) (st : AsyncStorage) :
  (∃ st', perform c st = (Returned (), st'))
  ∨ (∃ e, perform c st = (Threw e, st))
  ∨ perform c st = (Escapes, st).
Proof.
  destruct c as [x|x|a b|sem n col|sem n|sem a b col|sem n t
                |sem n i t|sem n i|sem n i]; cbn [perform].
  - left. unfold addSemester. rewrite bind_run, loadSemesters_run.
    destruct (negb _); by eexists.
  - left. rewrite deleteSemester_run. by eexists.
  - unfold updateSemester. case_bool_decide; [left; by eexists|].
    rewrite bind_run, loadSemesters_run.
    destruct (Array.includes _ _); [right; left; by eexists|].
    left. rewrite bind_run. unfold saveSemesters at 1.
    rewrite bind_run, loadData_run.
    destruct (JSObject.get _ a); by eexists.
  - open_call sem st; [|by right; right].
    left. destruct (JSObject.get _ n); by eexists.
  - open_call sem st; [|by right; right]. left. by eexists.
  - open_call sem st; [|by right; right].
    case_bool_decide.
    + destruct (JSObject.get _ b); [right; left|right; left|left]; by eexists.
    + destruct (JSObject.get _ a); [left|right; right|right; left];
        (done || by eexists).
  - open_call sem st; [|by right; right].
    destruct (JSObject.get (semesterData st sem) n) as [s| |] eqn:Hget.
    + rewrite Hget. destruct (tasks s); [left|right; left]; by eexists.
    + rewrite Hget. right; left; by eexists.
    + destruct (JSObject.get (JSObject.assign _ _ _) n) as [s'| |];
        [|right; left; by eexists..].
      destruct (tasks s'); [left|right; left]; by eexists.
  - open_call sem st; [|by right; right].
    destruct (JSObject.get _ n) as [s| |]; [|right; left; by eexists|left; by eexists].
    destruct (tasks s) as [ts|]; [|right; left; by eexists].
    left. destruct (Array.get ts i); by eexists.
  - open_call sem st; [|by right; right].
    destruct (JSObject.get _ n) as [s| |]; [|right; left; by eexists|left; by eexists].
    destruct (tasks s) as [ts|]; [left|right; left]; by eexists.
  - open_call sem st; [|by right; right].
    destruct (JSObject.get _ n) as [s| |]; [|right; left; by eexists|left; by eexists].
    destruct (tasks s) as [ts|]; [|right; left; by eexists].
    left. destruct (Array.get ts i); by eexists.
Qed.

(** A call that throws has saved nothing: the storage is the one it was
    given. *)
Theorem thrown_call_saves_nothing (c : Call) (st : AsyncStorage) (e : exn) :
  fst (perform c st) = Threw e → after c st = st.
Proof.
  unfold after.
  destruct (call_outcomes c st) as [[st' ->]|[[e' ->]| ->]]; [discriminate|done..].
Qed.

(** What a subject or task call leaves in the storage: what it found, or a
    saved document beside the index it found. *)
Lemma subject_call_storage (c : Call) (st : AsyncStorage) :
  on_index c = false →
  after c st = st ∨ ∃ data', after c st = saved data' st.
Proof.
  unfold after.
  destruct c as [x|x|a b|sem n col|sem n|sem a b col|sem n t
                |sem n i t|sem n i|sem n i]; cbn [perform on_index];
    try discriminate; intros _.
  - open_call sem st; [|by left].
    destruct (JSObject.get _ n); [by left| by left|].
    rewrite saveSemesterData_raw. right. by eexists.
  - open_call sem st; [|by left]. rewrite saveSemesterData_raw. right. by eexists.
  - open_call sem st; [|by left].
    case_bool_decide.
    + destruct (JSObject.get _ b); [by left|by left|].
      rewrite saveSemesterData_raw. right. by eexists.
    + destruct (JSObject.get _ a); [|by left..].
      rewrite saveSemesterData_raw. right. by eexists.
  - open_call sem st; [|by left].
    destruct (JSObject.get (semesterData st sem) n) as [s| |] eqn:Hget.
    + rewrite Hget. destruct (tasks s); [|by left].
      rewrite saveSemesterData_raw. right. by eexists.
    + rewrite Hget. by left.
    + destruct (JSObject.get (JSObject.assign _ _ _) n) as [s'| |]; [|by left..].
      destruct (tasks s'); [|by left].
      rewrite saveSemesterData_raw. right. by eexists.
  - open_call sem st; [|by left].
    destruct (JSObject.get _ n) as [s| |]; [|by left..].
    destruct (tasks s) as [ts|]; [|by left].
    destruct (Array.get ts i); [|by left].
    rewrite saveSemesterData_raw. right. by eexists.
  - open_call sem st; [|by left].
    destruct (JSObject.get _ n) as [s| |]; [|by left..].
    destruct (tasks s) as [ts|]; [|by left].
    rewrite saveSemesterData_raw. right. by eexists.
  - open_call sem st; [|by left].
    destruct (JSObject.get _ n) as [s| |]; [|by left..].
    destruct (tasks s) as [ts|]; [|by left].
    destruct (Array.get ts i); [|by left].
    rewrite saveSemesterData_raw. right. by eexists.
Qed.

Lemma index_untouched (c : Call) (st : AsyncStorage) :
  on_index c = false → semesters_list (after c st) = semesters_list st.
Proof.
  intros Hc. by destruct (subject_call_storage c st Hc) as [->|[data' ->]].
Qed.

(** The index and the document are written by different calls: no subject
    or task call changes the stored index, whatever its outcome, and
    [addSemester] never changes the stored document. *)
Theorem calls_keep_to_their_key (c : Call) (st : AsyncStorage) :
  (on_index c = false → semesters_list (after c st) = semesters_list st)
  ∧ (∀ x, c = AddSemester x →
       semester_task_manager (after c st) = semester_task_manager st).
Proof.
  split; [apply index_untouched|].
  intros x ->. unfold after. cbn [perform]. unfold addSemester.
  rewrite bind_run, loadSemesters_run.
  destruct (negb _); reflexivity.
Qed.

(** ** Invariants of the stored state *)

Lemma afterAll_cons c cs st : afterAll (c :: cs) st = afterAll cs (after c st).
Proof. reflexivity. Qed.

Lemma index_NoDup_after (c : Call) (st : AsyncStorage) :
  NoDup (semesterNames st) → NoDup (semesterNames (after c st)).
Proof.
  intros Hnd. destruct (on_index c) eqn:Hc.
  - unfold after.
    destruct c as [x|x|a b| | | | | | | ]; try discriminate; cbn [perform].
    + destruct (decide (x ∈ semesterNames st)) as [Hx|Hx].
      * by rewrite addSemester_known.
      * rewrite addSemester_fresh by done. simpl. rewrite semesterNames_mk.
        apply NoDup_app. split; [done|]. split; [|apply NoDup_singleton].
        intros y Hy ->%list_elem_of_singleton. done.
    + rewrite deleteSemester_run. simpl. rewrite semesterNames_mk.
      by apply NoDup_filter.
    + destruct (decide (a = b)) as [->|Hab].
      { unfold updateSemester. by rewrite bool_decide_eq_true_2. }
      destruct (decide (b ∈ semesterNames st)) as [Hb|Hb].
      { unfold updateSemester. rewrite bool_decide_eq_false_2 by done.
        by rewrite bind_run, loadSemesters_run, includes_true. }
      rewrite updateSemester_run by done. simpl. rewrite semesterNames_mk.
      apply NoDup_fmap_2_strong; [|done].
      intros y z Hy Hz. repeat case_bool_decide; congruence.
  - unfold semesterNames. by rewrite index_untouched.
Qed.

(** No series of calls puts a name into the index twice: an index without
    duplicates stays without duplicates, whatever the calls and their
    outcomes. *)
Theorem index_stays_duplicate_free (cs : list Call) (st : AsyncStorage) :
  NoDup (semesterNames st) → NoDup (semesterNames (afterAll cs st)).
Proof.
  revert st. induction cs as [|c cs IH]; intros st Hnd; [done|].
  rewrite afterAll_cons. apply IH. by apply index_NoDup_after.
Qed.

Lemma every_subject_semesterData P st semester :
  every_subject P st → map_Forall (λ _ r, P r) (semesterData st semester).
Proof.
  intros Hinv n r Hr. unfold semesterData in Hr.
  destruct (document st !! semester) as [sd|] eqn:Hsd; simpl in Hr.
  - by eapply Hinv.
  - by rewrite lookup_empty in Hr.
Qed.

Lemma every_subject_saved P st semester sd' :
  every_subject P st →
  map_Forall (λ _ r, P r) sd' →
  every_subject P (saved (<[semester := sd']> (document st)) st).
Proof.
  intros Hinv Hsd' sem sd n r. rewrite document_saved.
  intros [[<- <-]|[_ Hsd]]%lookup_insert_Some Hr.
  - by eapply Hsd'.
  - by eapply Hinv.
Qed.

Lemma every_subject_document P st st' :
  (∀ sem sd, document st' !! sem = Some sd →
     sd = ∅ ∨ document st !! sem = Some sd ∨ ∃ sem0, document st !! sem0 = Some sd) →
  every_subject P st → every_subject P st'.
Proof.
  intros Hdoc Hinv sem sd n r Hsd Hr.
  destruct (Hdoc _ _ Hsd) as [->|[Hsd'|[sem0 Hsd']]].
  - by rewrite lookup_empty in Hr.
  - by eapply Hinv.
  - by eapply Hinv.
Qed.

Lemma get_Own_lookup {A} (obj : gmap string A) k a :
  JSObject.get obj k = JSObject.Own a → obj !! k = Some a.
Proof.
  unfold JSObject.get. destruct (obj !! k); [congruence|].
  by destruct (JSObject.inherited k).
Qed.

Lemma get_not_Own_lookup {A} (obj : gmap string A) k :
  (∀ a, JSObject.get obj k ≠ JSObject.Own a) → obj !! k = None.
Proof.
  unfold JSObject.get. destruct (obj !! k) as [a|]; [|done].
  intros H. by destruct (H a).
Qed.

Lemma map_Forall_assign {A} (P : A → Prop) (obj : gmap string A) k v :
  P v → map_Forall (λ _ r, P r) obj →
  map_Forall (λ _ r, P r) (JSObject.assign obj k v).
Proof.
  intros Hv Hobj. unfold JSObject.assign.
  destruct (obj !! k); [|case_bool_decide]; try done;
    by apply map_Forall_insert_2.
Qed.

(** A property of subject records that the records built by a call have,
    given that the records they are built from have it, holds of every
    stored record after the call if it did before. *)
Lemma record_property_kept (P : SubjectRecord → Prop) (c : Call) (st : AsyncStorage) :
  (∀ ts col, P (mkSubject (Some ts) (Some col))) →
  (∀ s ts, P s → P (mkSubject (Some ts) (colorTag s))) →
  (∀ s col, P s → P (mkSubject (tasks s) (Some col))) →
  (renames_absent_subject c st → ∀ col, P (mkSubject None (Some col))) →
  every_subject P st → every_subject P (after c st).
Proof.
  intros Hfresh Hedit Hcol Hghost Hinv. unfold after.
  pose proof (λ sem, every_subject_semesterData P st sem Hinv) as Hsd.
  destruct c as [x|x|a b|sem n col|sem n|sem a b col|sem n t
                |sem n i t|sem n i|sem n i]; cbn [perform].
  - unfold addSemester. rewrite bind_run, loadSemesters_run.
    destruct (negb _); exact Hinv.
  - rewrite deleteSemester_run. simpl.
    intros sem sd n r. rewrite document_mk.
    intros [_ Hsd']%lookup_delete_Some. by eapply Hinv.
  - unfold updateSemester. case_bool_decide; [exact Hinv|].
    rewrite bind_run, loadSemesters_run.
    destruct (Array.includes _ _); [exact Hinv|].
    rewrite bind_run. unfold saveSemesters at 1.
    rewrite bind_run, loadData_run, document_index_saved.
    destruct (JSObject.get (document st) a) as [sub|k|] eqn:Ha; [| |exact Hinv].
    + apply get_Own_lookup in Ha. simpl.
      eapply every_subject_document; [|exact Hinv].
      intros sem sd. rewrite document_mk.
      intros [_ Hlook]%lookup_delete_Some. right.
      unfold JSObject.assign in Hlook.
      destruct (document st !! b); [|case_bool_decide]; eauto;
        apply lookup_insert_Some in Hlook as [[_ <-]|[_ Hlook]]; eauto.
    + simpl. eapply every_subject_document; [|exact Hinv].
      intros sem sd. rewrite document_mk.
      intros [_ Hlook]%lookup_delete_Some.
      unfold assign_builtin in Hlook.
      destruct (document st !! b); repeat case_bool_decide; eauto;
        first [ apply lookup_insert_Some in Hlook as [[_ <-]|[_ Hlook]]; eauto
              | apply lookup_delete_Some in Hlook as [_ Hlook]; eauto ].
  - open_call sem st; [|exact Hinv].
    destruct (JSObject.get _ n); [exact Hinv..|].
    rewrite saveSemesterData_run by done. apply every_subject_saved; [done|].
    apply map_Forall_assign; [apply Hfresh|apply Hsd].
  - open_call sem st; [|exact Hinv].
    rewrite saveSemesterData_run by done. apply every_subject_saved; [done|].
    apply map_Forall_delete, Hsd.
  - open_call sem st; [|exact Hinv].
    case_bool_decide as Hab.
    + destruct (JSObject.get _ b); [exact Hinv..|].
      rewrite saveSemesterData_run by done. apply every_subject_saved; [done|].
      apply map_Forall_delete, map_Forall_assign; [|apply Hsd].
      destruct (JSObject.get (semesterData st sem) a) as [o|k|] eqn:Ha; simpl.
      * apply Hcol. apply get_Own_lookup in Ha. by eapply Hsd.
      * apply Hghost. split; [done|].
        apply get_not_Own_lookup. intros o'. by rewrite Ha.
      * apply Hghost. split; [done|].
        apply get_not_Own_lookup. intros o'. by rewrite Ha.
    + destruct (JSObject.get (semesterData st sem) a) as [o|k|] eqn:Ha;
        [|exact Hinv..].
      rewrite saveSemesterData_run by done. apply every_subject_saved; [done|].
      apply map_Forall_insert_2; [|apply Hsd].
      apply Hcol. apply get_Own_lookup in Ha. by eapply Hsd.
  - open_call sem st; [|exact Hinv].
    destruct (JSObject.get (semesterData st sem) n) as [s|k|] eqn:Hget.
    + rewrite Hget. destruct (tasks s); [|exact Hinv].
      rewrite saveSemesterData_run by done. apply every_subject_saved; [done|].
      apply map_Forall_insert_2; [|apply Hsd].
      apply Hedit. apply get_Own_lookup in Hget. by eapply Hsd.
    + rewrite Hget. exact Hinv.
    + assert (Hassigned : map_Forall (λ _ r, P r)
                (JSObject.assign (semesterData st sem) n addTask_fresh_subject))
        by (apply map_Forall_assign; [apply Hfresh|apply Hsd]).
      destruct (JSObject.get (JSObject.assign _ _ _) n) as [s'| |] eqn:Hget';
        [|exact Hinv..].
      destruct (tasks s'); [|exact Hinv].
      rewrite saveSemesterData_run by done. apply every_subject_saved; [done|].
      apply map_Forall_insert_2; [|done].
      apply Hedit. apply get_Own_lookup in Hget'. by eapply Hassigned.
  - open_call sem st; [|exact Hinv].
    destruct (JSObject.get _ n) as [s| |] eqn:Hget; [|exact Hinv..].
    destruct (tasks s) as [ts|]; [|exact Hinv].
    destruct (Array.get ts i); [|exact Hinv].
    rewrite saveSemesterData_run by done. apply every_subject_saved; [done|].
    apply map_Forall_insert_2; [|apply Hsd].
    apply Hedit. apply get_Own_lookup in Hget. by eapply Hsd.
  - open_call sem st; [|exact Hinv].
    destruct (JSObject.get _ n) as [s| |] eqn:Hget; [|exact Hinv..].
    destruct (tasks s) as [ts|]; [|exact Hinv].
    rewrite saveSemesterData_run by done. apply every_subject_saved; [done|].
    apply map_Forall_insert_2; [|apply Hsd].
    apply Hedit. apply get_Own_lookup in Hget. by eapply Hsd.
  - open_call sem st; [|exact Hinv].
    destruct (JSObject.get _ n) as [s| |] eqn:Hget; [|exact Hinv..].
    destruct (tasks s) as [ts|]; [|exact Hinv].
    destruct (Array.get ts i); [|exact Hinv].
    rewrite saveSemesterData_run by done. apply every_subject_saved; [done|].
    apply map_Forall_insert_2; [|apply Hsd].
    apply Hedit. apply get_Own_lookup in Hget. by eapply Hsd.
Qed.

(** Every record the module writes carries a [colorTag]: if every stored
    subject has one, so does every stored subject after any series of
    calls whose names are plain. *)
Theorem colorTag_always_stored (cs : list Call) (st : AsyncStorage) :
  Forall plain_call cs →
  every_subject has_colorTag st → every_subject has_colorTag (afterAll cs st).
Proof.
  intros _. revert st. induction cs as [|c cs IH]; intros st Hinv; [done|].
  rewrite afterAll_cons. apply IH.
  apply record_property_kept; try done; unfold has_colorTag; simpl; eauto.
Qed.

(** The task array can only go missing through a rename of a subject that
    is not stored: if every stored subject has a task array, so does every
    stored subject after any call that is not such a rename (and does not
    go on with a built-in). *)
Theorem tasks_array_kept (c : Call) (st : AsyncStorage) :
  every_subject has_tasks st →
  ¬ renames_absent_subject c st →
  fst (perform c st) ≠ Escapes →
  every_subject has_tasks (after c st).
Proof.
  intros Hinv Hc _.
  apply record_property_kept; try done; unfold has_tasks; simpl; eauto.
Qed.

(** On a document in which every subject has a task array, a [TypeError]
    has one of two sources: [updateSubject] with equal names on a plain
    name that is not stored, or a task call on a subject name that is not
    stored but inherited. *)
Theorem TypeError_sources (c : Call) (st : AsyncStorage) :
  every_subject has_tasks st →
  fst (perform c st) = Threw TypeError →
  (∃ semester n col,
     c = UpdateSubject semester n n col
     ∧ semesterData st semester !! n = None ∧ plain n)
  ∨ (∃ semester n,
       task_target c = Some (semester, n)
       ∧ semesterData st semester !! n = None
       ∧ JSObject.inherited n = true).
Proof.
  intros Hinv.
  pose proof (λ sem, every_subject_semesterData _ st sem Hinv) as Hsd.
  assert (Hinh : ∀ sem n, JSObject.get (semesterData st sem) n = JSObject.Builtin n →
            semesterData st sem !! n = None ∧ JSObject.inherited n = true).
  { intros sem n. unfold JSObject.get.
    destruct (semesterData st sem !! n); [discriminate|].
    by destruct (JSObject.inherited n). }
  assert (Hbuiltin : ∀ sem n k, JSObject.get (semesterData st sem) n = JSObject.Builtin k →
            JSObject.get (semesterData st sem) n = JSObject.Builtin n).
  { intros sem n k. unfold JSObject.get.
    destruct (semesterData st sem !! n); [discriminate|].
    by destruct (JSObject.inherited n). }
  destruct c as [x|x|a b|sem n col|sem n|sem a b col|sem n t
                |sem n i t|sem n i|sem n i]; cbn [perform task_target].
  - unfold addSemester. rewrite bind_run, loadSemesters_run.
    destruct (negb _); discriminate.
  - rewrite deleteSemester_run. discriminate.
  - unfold updateSemester. case_bool_decide; [discriminate|].
    rewrite bind_run, loadSemesters_run.
    destruct (Array.includes _ _); [discriminate|].
    rewrite bind_run. unfold saveSemesters at 1.
    rewrite bind_run, loadData_run.
    destruct (JSObject.get _ a); discriminate.
  - open_call sem st; [|discriminate]. destruct (JSObject.get _ n); discriminate.
  - open_call sem st; discriminate.
  - open_call sem st; [|discriminate]. case_bool_decide as Hab.
    + destruct (JSObject.get _ b); discriminate.
    + assert (a = b) as <- by (destruct (decide (a = b)); [done|by destruct Hab]).
      unfold JSObject.get.
      destruct (semesterData st sem !! a) eqn:Ha; [discriminate|].
      destruct (JSObject.inherited a) eqn:Hinha; [discriminate|].
      intros _. left. by exists sem, a, col.
  - open_call sem st; [|discriminate].
    destruct (JSObject.get (semesterData st sem) n) as [s|k|] eqn:Hget.
    + rewrite Hget. apply get_Own_lookup in Hget.
      destruct (Hsd _ _ _ Hget) as [ts ->]. discriminate.
    + intros _. right. exists sem, n. split; [done|]. eapply Hinh, Hbuiltin, Hget.
    + unfold JSObject.get in Hget |- *.
      destruct (semesterData st sem !! n) eqn:Hn; [discriminate|].
      destruct (JSObject.inherited n) eqn:Hin; [discriminate|].
      rewrite assign_plain, lookup_insert_eq by done. discriminate.
  - open_call sem st; [|discriminate].
    destruct (JSObject.get (semesterData st sem) n) as [s|k|] eqn:Hget;
      [|intros _; right; exists sem, n; split; [done|]; eapply Hinh, Hbuiltin, Hget
       |discriminate].
    apply get_Own_lookup in Hget. destruct (Hsd _ _ _ Hget) as [ts ->].
    destruct (Array.get ts i); discriminate.
  - open_call sem st; [|discriminate].
    destruct (JSObject.get (semesterData st sem) n) as [s|k|] eqn:Hget;
      [|intros _; right; exists sem, n; split; [done|]; eapply Hinh, Hbuiltin, Hget
       |discriminate].
    apply get_Own_lookup in Hget. destruct (Hsd _ _ _ Hget) as [ts ->].
    discriminate.
  - open_call sem st; [|discriminate].
    destruct (JSObject.get (semesterData st sem) n) as [s|k|] eqn:Hget;
      [|intros _; right; exists sem, n; split; [done|]; eapply Hinh, Hbuiltin, Hget
       |discriminate].
    apply get_Own_lookup in Hget. destruct (Hsd _ _ _ Hget) as [ts ->].
    destruct (Array.get ts i); discriminate.
Qed.

(** ** Reading back *)

(** What [saveSemesterData] stores for a semester is what
    [getSemesterData] then returns for it, unless the name is
    ["__proto__"] and not a key of the document: then nothing is stored
    for it.  Another semester that is stored or plainly named reads as
    before. *)
Theorem saveSemesterData_getSemesterData (semester semester' : string)
  (sd : SemesterRecord) (st : AsyncStorage) :
  (semester ≠ "__proto__" ∨ is_Some (document st !! semester) →
     (saveSemesterData semester sd ;; getSemesterData semester) st
       = (Returned sd, saved (<[semester := sd]> (document st)) st))
  ∧ (semester = "__proto__" → document st !! semester = None →
       saveSemesterData semester sd st = (Returned (), saved (document st) st))
  ∧ (ordinary_semester st semester' → semester' ≠ semester →
       fst ((saveSemesterData semester sd ;; getSemesterData semester') st)
         = Returned (semesterData st semester')).
Proof.
  split; [|split].
  - intros Hsem. rewrite bind_run, saveSemesterData_raw.
    assert (JSObject.assign (document st) semester sd = <[semester := sd]> (document st))
      as -> by (destruct Hsem; [by apply assign_not_proto|by apply assign_own]).
    rewrite getSemesterData_run by apply ordinary_saved.
    by rewrite semesterData_saved_eq.
  - intros -> Hnone. rewrite saveSemesterData_raw. by rewrite assign_proto.
  - intros Hord Hne. rewrite bind_run, saveSemesterData_raw.
    assert (Hsame : document (saved (JSObject.assign (document st) semester sd) st)
                      !! semester' = document st !! semester')
      by (rewrite document_saved; by apply assign_other).
    rewrite getSemesterData_run.
    + simpl. unfold semesterData. by rewrite Hsame.
    + destruct Hord as [Hown|Hplain]; [left; by rewrite Hsame|by right].
Qed.

(** A semester that is deleted and added again comes back at the end of
    the index and without subjects. *)
Theorem deleteSemester_addSemester (x : string) (st : AsyncStorage) :
  ∃ st', (deleteSemester x ;; addSemester x) st = (Returned (), st')
    ∧ semesterNames st' = (filter (λ s, s ≠ x) (semesterNames st) ++ [x])%list
    ∧ semesterData st' x = ∅
    ∧ (∀ k, k ≠ x → document st' !! k = document st !! k).
Proof.
  eexists. split.
  - rewrite bind_run, deleteSemester_run. apply addSemester_fresh.
    rewrite semesterNames_mk.
    intros Hin. apply list_elem_of_filter in Hin as [Hne _]. by apply Hne.
  - rewrite !semesterNames_mk. split; [done|].
    unfold semesterData. rewrite document_index_saved, document_mk.
    split; [by rewrite lookup_delete_eq|].
    intros k Hk. by rewrite lookup_delete_ne.
Qed.

(** ** Inherited names *)

(** On a semester that is stored or plainly named, a subject name that is
    not stored but inherited passes every truthiness guard: [addSubject]
    stores nothing, [updateSubject] from another name throws the
    duplicate-name error, and the four task functions throw a [TypeError];
    the storage is unchanged in each case. *)
Theorem inherited_subject_name_guards (semester n : string) (st : AsyncStorage) :
  ordinary_semester st semester →
  semesterData st semester !! n = None →
  JSObject.inherited n = true →
  (∀ c, addSubject semester n c st = (Returned (), st))
  ∧ (∀ old c, old ≠ n →
       updateSubject semester old n c st = (Threw duplicate_subject, st))
  ∧ (∀ t, addTask semester n t st = (Threw TypeError, st))
  ∧ (∀ i t, updateTask semester n i t st = (Threw TypeError, st))
  ∧ (∀ i, deleteTask semester n i st = (Threw TypeError, st))
  ∧ (∀ i, toggleTaskCompletion semester n i st = (Threw TypeError, st)).
Proof.
  intros Hord Hn Hinh.
  split; [intros c; by apply addSubject_inherited_run|].
  split.
  { intros old c Hne. unfold updateSubject.
    rewrite bind_run, getSemesterData_run by done.
    rewrite bool_decide_eq_true_2 by done. by rewrite get_builtin. }
  split; [intros t; by apply addTask_inherited|].
  split; [intros i t; by apply updateTask_inherited|].
  split.
  - intros i. unfold deleteTask.
    rewrite bind_run, getSemesterData_run by done. by rewrite get_builtin.
  - intros i. unfold toggleTaskCompletion.
    rewrite bind_run, getSemesterData_run by done. by rewrite get_builtin.
Qed.

(** ** The further properties at concrete stores *)

Lemma math_stored :
  semesterData Scenario.two_semesters "Semester 1" !! "Math"
    = Some (mkSubject (Some [Scenario.hw1; Scenario.hw2; Scenario.hw3])
                      (Some "#111111")).
Proof. vm_compute. reflexivity. Qed.

Lemma fresh_install_every_subject P : every_subject P Scenario.fresh_install.
Proof.
  intros sem sd n s Hsd.
  change (document Scenario.fresh_install) with (∅ : Document) in Hsd.
  by rewrite lookup_empty in Hsd.
Qed.

Lemma updateSemester_renames_witness :
  ∃ st', updateSemester "Semester 1" "Autumn" Scenario.two_semesters
           = (Returned (), st')
    ∧ semesterNames st' !! 0%nat = Some "Autumn"
    ∧ document st' !! "Autumn" = document Scenario.two_semesters !! "Semester 1"
    ∧ document st' !! "Semester 1" = None.
Proof.
  destruct (updateSemester_renames "Semester 1" "Autumn" Scenario.two_semesters)
    as (st' & Hrun & _ & Hpos & _ & Hmove & _); [by_evaluation|by_evaluation|].
  exists st'. split; [exact Hrun|].
  split; [exact (Hpos 0%nat "Semester 1" eq_refl)|].
  destruct (Hmove (semesterData Scenario.two_semesters "Semester 1")) as [Hb Ha];
    [vm_compute; reflexivity|left; by_evaluation|].
  split; [rewrite Hb; vm_compute; reflexivity|exact Ha].
Defined.

Lemma addSemester_deleteSemester_witness :
  ∃ st', (addSemester "Semester 3" ;; deleteSemester "Semester 3")
           Scenario.two_semesters = (Returned (), st')
    ∧ semesterNames st' = semesterNames Scenario.two_semesters
    ∧ document st' = delete "Semester 3" (document Scenario.two_semesters).
Proof. apply addSemester_deleteSemester. by_evaluation. Defined.

Lemma updateSemester_there_and_back_witness :
  ∃ st', (updateSemester "Semester 1" "Autumn" ;; updateSemester "Autumn" "Semester 1")
           Scenario.two_semesters = (Returned (), st')
    ∧ semesterNames st' = semesterNames Scenario.two_semesters
    ∧ document st' = document Scenario.two_semesters.
Proof.
  apply (updateSemester_there_and_back "Semester 1" "Autumn" Scenario.two_semesters
           (semesterData Scenario.two_semesters "Semester 1"));
    [by_evaluation|by_evaluation|vm_compute; reflexivity|vm_compute; reflexivity
    |by_evaluation|by_evaluation].
Defined.

Lemma updateSubject_moves_witness :
  ∃ st', updateSubject "Semester 1" "Math" "Algebra" "#222222" Scenario.two_semesters
           = (Returned (), st')
    ∧ semesterData st' "Semester 1" !! "Algebra"
        = Some (mkSubject (Some [Scenario.hw1; Scenario.hw2; Scenario.hw3])
                          (Some "#222222"))
    ∧ semesterData st' "Semester 1" !! "Math" = None.
Proof.
  destruct (updateSubject_moves "Semester 1" "Math" "Algebra" "#222222"
              Scenario.two_semesters _ math_stored)
    as (st' & Hrun & Hb & Ha & _);
    [by_evaluation|vm_compute; reflexivity|vm_compute; reflexivity|].
  exists st'. split; [exact Hrun|]. split; [exact Hb|exact Ha].
Defined.

Lemma addSubject_deleteSubject_witness :
  ∃ st', (addSubject "Semester 1" "Chemistry" None ;;
          deleteSubject "Semester 1" "Chemistry") Scenario.two_semesters
           = (Returned (), st')
    ∧ semesterData st' "Semester 1" = semesterData Scenario.two_semesters "Semester 1".
Proof.
  destruct (addSubject_deleteSubject "Semester 1" "Chemistry" None
              Scenario.two_semesters) as (st' & Hrun & Hsame & _);
    [exact two_semesters_ordinary|vm_compute; reflexivity|vm_compute; reflexivity|].
  exists st'. split; [exact Hrun|exact Hsame].
Defined.

Lemma updateSubject_there_and_back_witness :
  ∃ st', (updateSubject "Semester 1" "Math" "Algebra" "#222222" ;;
          updateSubject "Semester 1" "Algebra" "Math" "#111111")
           Scenario.two_semesters = (Returned (), st')
    ∧ semesterData st' "Semester 1" = semesterData Scenario.two_semesters "Semester 1".
Proof.
  destruct (updateSubject_there_and_back "Semester 1" "Math" "Algebra" "#222222"
              "#111111" Scenario.two_semesters _ math_stored)
    as (st' & Hrun & Hsame & _);
    [reflexivity|by_evaluation|vm_compute; reflexivity
    |vm_compute; reflexivity|vm_compute; reflexivity|].
  exists st'. split; [exact Hrun|exact Hsame].
Defined.

Lemma legacy_updateSubject_overwrites_witness :
  ∃ st', Legacy.updateSubject "Semester 1" "Physics" "Math" "#222222"
           Scenario.two_semesters = (Returned (), st')
    ∧ semesterData st' "Semester 1" !! "Math"
        = Some (mkSubject (Some []) (Some "#222222"))
    ∧ semesterData st' "Semester 1" !! "Physics" = None.
Proof.
  destruct (legacy_updateSubject_overwrites "Semester 1" "Physics" "Math" "#222222"
              Scenario.two_semesters
              (mkSubject (Some []) (Some "#03dac6"))
              (mkSubject (Some [Scenario.hw1; Scenario.hw2; Scenario.hw3])
                         (Some "#111111")))
    as (st' & Hrun & Hb & Ha & _);
    [vm_compute; reflexivity|exact math_stored|by_evaluation|].
  exists st'. split; [exact Hrun|]. split; [exact Hb|exact Ha].
Defined.

Lemma toggleTaskCompletion_flips_witness :
  (∃ st' ts', toggleTaskCompletion "Semester 1" "Math" 2 Scenario.two_semesters
                = (Returned (), st')
     ∧ semesterData st' "Semester 1" !! "Math"
         = Some (mkSubject (Some ts') (Some "#111111"))
     ∧ Array.get ts' 2 = Some (mkTask "HW3" "2025-01-24" false))
  ∧ toggleTaskCompletion "Semester 1" "History" 0 Scenario.two_semesters
      = (Returned (), Scenario.two_semesters)
  ∧ toggleTaskCompletion "Semester 1" "Math" 3 Scenario.two_semesters
      = (Returned (), Scenario.two_semesters).
Proof.
  destruct (toggleTaskCompletion_flips "Semester 1" "Math" 2 Scenario.two_semesters)
    as (Hin & _).
  destruct (toggleTaskCompletion_flips "Semester 1" "History" 0 Scenario.two_semesters)
    as (_ & Habsent & _).
  destruct (toggleTaskCompletion_flips "Semester 1" "Math" 3 Scenario.two_semesters)
    as (_ & _ & Hout).
  split; [|split].
  - destruct (Hin _ [Scenario.hw1; Scenario.hw2; Scenario.hw3] Scenario.hw3 math_stored)
      as (st' & ts' & Hrun & Hrec & _ & Hget & _); [reflexivity|reflexivity|].
    exists st', ts'. split; [exact Hrun|]. split; [exact Hrec|exact (Hget 2)].
  - apply Habsent;
      [exact two_semesters_ordinary|vm_compute; reflexivity|vm_compute; reflexivity].
  - apply (Hout _ [Scenario.hw1; Scenario.hw2; Scenario.hw3] math_stored);
      [reflexivity|simpl; lia].
Defined.

Lemma toggleTaskCompletion_twice_witness :
  (toggleTaskCompletion "Semester 1" "Math" 0 ;;
   toggleTaskCompletion "Semester 1" "Math" 0) Scenario.two_semesters
    = (Returned (), Scenario.two_semesters).
Proof.
  apply (toggleTaskCompletion_twice "Semester 1" "Math" 0 Scenario.two_semesters
           _ [Scenario.hw1; Scenario.hw2; Scenario.hw3] Scenario.hw1 math_stored);
    reflexivity.
Defined.

Lemma deleteTask_in_range_witness :
  ∃ st' ts', deleteTask "Semester 1" "Math" 0 Scenario.two_semesters
               = (Returned (), st')
    ∧ semesterData st' "Semester 1" !! "Math"
        = Some (mkSubject (Some ts') (Some "#111111"))
    ∧ Array.get ts' 0 = Some Scenario.hw2
    ∧ Array.get ts' 1 = Some Scenario.hw3
    ∧ S (length ts') = 3%nat.
Proof.
  destruct (deleteTask_in_range "Semester 1" "Math" 0 Scenario.two_semesters
              _ [Scenario.hw1; Scenario.hw2; Scenario.hw3] math_stored)
    as (st' & ts' & Hrun & Hrec & Hlen & _ & Hshift & _);
    [reflexivity|simpl; lia|].
  exists st', ts'. split; [exact Hrun|]. split; [exact Hrec|].
  split; [apply (Hshift 0); lia|]. split; [apply (Hshift 1); lia|exact Hlen].
Defined.

Lemma addTask_deleteTask_witness :
  (addTask "Semester 1" "Math" Scenario.hw1 ;; deleteTask "Semester 1" "Math" 3)
     Scenario.two_semesters = (Returned (), Scenario.two_semesters)
  ∧ (addTask "Semester 1" "Math" Scenario.hw1 ;; deleteTask "Semester 1" "Math" (-1))
      Scenario.two_semesters = (Returned (), Scenario.two_semesters).
Proof.
  apply (addTask_deleteTask "Semester 1" "Math" Scenario.hw1 Scenario.two_semesters
           _ [Scenario.hw1; Scenario.hw2; Scenario.hw3] math_stored).
  reflexivity.
Defined.

Lemma addTask_appends_witness :
  ∃ st' s', addTask "Semester 1" "History" Scenario.hw1 Scenario.two_semesters
              = (Returned (), st')
    ∧ semesterData st' "Semester 1" !! "History" = Some s'
    ∧ tasks s' = Some [Scenario.hw1]
    ∧ colorTag s' = Some "#6C63FF".
Proof.
  destruct (addTask_appends "Semester 1" "History" Scenario.hw1 Scenario.two_semesters)
    as (st' & s' & Hrun & Hrec & Hts & Hcol & _).
  { left. split; [exact two_semesters_ordinary|].
    split; vm_compute; reflexivity. }
  exists st', s'. split; [exact Hrun|]. split; [exact Hrec|].
  split; [exact Hts|exact Hcol].
Defined.

Lemma loadTasks_after_addTask_witness :
  ∃ st', (addTask "Semester 1" "Math" Scenario.hw1 ;;
          loadTasks "Semester 1" "Math" []) Scenario.two_semesters
    = (Returned [Scenario.hw1; Scenario.hw2; Scenario.hw3; Scenario.hw1], st').
Proof.
  destruct (loadTasks_after_addTask "Semester 1" "Math" Scenario.hw1 []
              Scenario.two_semesters) as (st' & Hrun).
  - right. eexists _, _. split; [exact math_stored|reflexivity].
  - exists st'. exact Hrun.
Defined.

Lemma thrown_call_saves_nothing_witness :
  after (UpdateSubject "Semester 1" "Math" "Physics" "#222222") Scenario.two_semesters
    = Scenario.two_semesters.
Proof.
  apply (thrown_call_saves_nothing _ _ duplicate_subject).
  vm_compute. reflexivity.
Defined.

Lemma calls_keep_to_their_key_witness :
  semesters_list (after (AddTask "Semester 3" "Math" Scenario.hw1) Scenario.two_semesters)
    = semesters_list Scenario.two_semesters
  ∧ semester_task_manager (after (AddSemester "Semester 3") Scenario.two_semesters)
    = semester_task_manager Scenario.two_semesters.
Proof.
  split.
  - apply calls_keep_to_their_key. reflexivity.
  - destruct (calls_keep_to_their_key (AddSemester "Semester 3")
                Scenario.two_semesters) as [_ Hdoc].
    apply (Hdoc "Semester 3"). reflexivity.
Defined.

Lemma index_stays_duplicate_free_witness :
  NoDup (semesterNames
           (afterAll [AddSemester "Semester 1"; AddSemester "Semester 2";
                      UpdateSemester "Semester 2" "Semester 1";
                      AddSemester "Semester 1"; DeleteSemester "Semester 3"]
              Scenario.fresh_install)).
Proof. apply index_stays_duplicate_free. apply NoDup_nil_2. Defined.

Lemma colorTag_always_stored_witness :
  every_subject has_colorTag
    (afterAll [UpdateSubject "Semester 1" "Ghost" "Math" "#222222";
               AddTask "Semester 1" "Physics" Scenario.hw1;
               UpdateSemester "Semester 1" "Autumn"]
       Scenario.fresh_install).
Proof.
  apply colorTag_always_stored; [|apply fresh_install_every_subject].
  repeat constructor; vm_compute; reflexivity.
Defined.

Lemma tasks_array_kept_witness :
  every_subject has_tasks
    (after (UpdateSubject "Semester 1" "Math" "Algebra" "#222222")
       (after (AddSubject "Semester 1" "Math" None) Scenario.fresh_install)).
Proof.
  apply tasks_array_kept.
  - apply tasks_array_kept; [apply fresh_install_every_subject| |].
    + simpl. intros [].
    + vm_compute. discriminate.
  - simpl. intros [_ Habsent]. vm_compute in Habsent. discriminate.
  - vm_compute. discriminate.
Defined.

Lemma TypeError_sources_witness :
  (∃ semester n col,
     UpdateSubject "Semester 1" "Math" "Math" "#222222" = UpdateSubject semester n n col
     ∧ semesterData Scenario.fresh_install semester !! n = None ∧ plain n)
  ∨ (∃ semester n,
       task_target (UpdateSubject "Semester 1" "Math" "Math" "#222222")
         = Some (semester, n)
       ∧ semesterData Scenario.fresh_install semester !! n = None
       ∧ JSObject.inherited n = true).
Proof.
  apply TypeError_sources; [apply fresh_install_every_subject|].
  vm_compute. reflexivity.
Defined.

Lemma deleteSubject_removes_witness :
  ∃ st', deleteSubject "Semester 1" "Physics" Scenario.two_semesters = (Returned (), st')
    ∧ semesterData st' "Semester 1" !! "Physics" = None
    ∧ semesterData st' "Semester 1" !! "Math"
        = semesterData Scenario.two_semesters "Semester 1" !! "Math".
Proof.
  destruct (deleteSubject_removes "Semester 1" "Physics" Scenario.two_semesters
              two_semesters_ordinary) as (st' & Hrun & Hgone & Hrest & _).
  exists st'. split; [exact Hrun|]. split; [exact Hgone|].
  apply Hrest. by_evaluation.
Defined.

Lemma updateSubject_throws_iff_witness :
  fst (updateSubject "Semester 1" "Math" "valueOf" "#222222" Scenario.two_semesters)
    = Threw duplicate_subject.
Proof.
  apply (updateSubject_throws_iff "Semester 1" "Math" "valueOf" "#222222"
           Scenario.two_semesters duplicate_subject two_semesters_ordinary).
  left. split; [reflexivity|]. split; [by_evaluation|].
  right. vm_compute. reflexivity.
Defined.

Lemma saveSemesterData_getSemesterData_witness :
  (saveSemesterData "Semester 2" ∅ ;; getSemesterData "Semester 2")
     Scenario.two_semesters
    = (Returned ∅,
       saved (<["Semester 2" := ∅]> (document Scenario.two_semesters))
             Scenario.two_semesters)
  ∧ saveSemesterData "__proto__" ∅ Scenario.two_semesters
      = (Returned (), saved (document Scenario.two_semesters) Scenario.two_semesters)
  ∧ fst ((saveSemesterData "Semester 2" ∅ ;; getSemesterData "Semester 1")
           Scenario.two_semesters)
      = Returned (semesterData Scenario.two_semesters "Semester 1").
Proof.
  destruct (saveSemesterData_getSemesterData "Semester 2" "Semester 1" ∅
              Scenario.two_semesters) as (Hsame & _ & Hother).
  destruct (saveSemesterData_getSemesterData "__proto__" "Semester 1" ∅
              Scenario.two_semesters) as (_ & Hproto & _).
  split; [apply Hsame; left; by_evaluation|].
  split; [apply Hproto; [reflexivity|vm_compute; reflexivity]|].
  apply Hother; [exact two_semesters_ordinary|by_evaluation].
Defined.

Lemma inherited_subject_name_guards_witness :
  addSubject "Semester 1" "constructor" None Scenario.two_semesters
    = (Returned (), Scenario.two_semesters)
  ∧ updateSubject "Semester 1" "Math" "constructor" "#222222" Scenario.two_semesters
      = (Threw duplicate_subject, Scenario.two_semesters)
  ∧ addTask "Semester 1" "constructor" Scenario.hw1 Scenario.two_semesters
      = (Threw TypeError, Scenario.two_semesters)
  ∧ deleteTask "Semester 1" "constructor" 0 Scenario.two_semesters
      = (Threw TypeError, Scenario.two_semesters).
Proof.
  destruct (inherited_subject_name_guards "Semester 1" "constructor"
              Scenario.two_semesters two_semesters_ordinary)
    as (Hadd & Hrename & Htask & _ & Hdelete & _);
    [vm_compute; reflexivity|vm_compute; reflexivity|].
  split; [apply Hadd|]. split; [apply Hrename; by_evaluation|].
  split; [apply Htask|apply Hdelete].
Defined.
